(** * Error normalisation and not-found handling of the student service

    A shallow embedding of [src/common/filters/all-exceptions.filter.ts]
    (the global exception filter [AllExceptionsFilter]) and of
    [StudentsService.remove], with the JavaScript values the filter
    inspects at run time modelled as a small untyped value universe. *)

(** Besides the filter, the development embeds the other methods of the
    students service, the seed services that run when the application
    starts (over the tables and constraints of the migrations) and the
    connection settings of the migration tool, and proves how they behave
    on their own and in front of the filter. *)

From Stdlib Require Import ZArith List String Ascii Bool Lia DecimalString.
From stdpp Require Import gmap strings.
Import ListNotations.
Local Open Scope string_scope.
Local Open Scope Z_scope.
Set Warnings "-register-all".

(** ** JavaScript values

    The filter receives [exception: unknown] and sniffs its shape, so the
    payloads are modelled dynamically: the values are those of JSON-like
    data.  Numbers are restricted to the integer-valued ones (HTTP
    statuses, affected-row counts): [JNum n] is the number [n], which a
    double holds exactly up to 2^53 in magnitude; beyond, it stands for the
    double nearest to [n].  A string is the UTF-8 text of a well-formed
    JavaScript string.  An object is a plain one (its prototype is
    [Object.prototype], its members are data): the list of its own
    enumerable properties in the order the engine enumerates them, so
    [Object.values] is the list of second components.  No value is a
    function, so an own member [toString] hides the inherited method
    without being callable. *)

Inductive JsVal : Type :=
| JUndefined
| JNull
| JBool (b : bool)
| JNum (n : Z)
| JStr (s : string)
| JArr (elems : list JsVal)
| JObj (props : list (string * JsVal)).

(** Outcome of running a piece of code: a value, or a thrown [E]. *)
Inductive Completion (E A : Type) : Type :=
| Normal (a : A)
| Throw (e : E).
Arguments Normal {E A} a.
Arguments Throw {E A} e.

Definition bind {E A B} (c : Completion E A) (k : A -> Completion E B)
  : Completion E B :=
  match c with
  | Normal a => k a
  | Throw e => Throw e
  end.

Notation "'let!' x ':=' c 'in' k" := (bind c (fun x => k))
  (at level 10, x name, c at level 100, k at level 200).

(** The only error the filter's own code can raise is a [TypeError]
    (property read on a nullish value, call of a non-function). *)
Inductive JsError : Type :=
| TypeError (what : string).

Definition Js (A : Type) : Type := Completion JsError A.

Fixpoint mapM {E A B} (f : A -> Completion E B) (l : list A)
  : Completion E (list B) :=
  match l with
  | [] => Normal []
  | x :: t =>
      let! y := f x in
      let! ys := mapM f t in
      Normal (y :: ys)
  end.

(** *** Primitive operations *)

Fixpoint assoc (k : string) (props : list (string * JsVal)) : option JsVal :=
  match props with
  | [] => None
  | (k', v) :: t => if String.eqb k k' then Some v else assoc k t
  end.

Definition isNullish (v : JsVal) : bool :=
  match v with
  | JUndefined | JNull => true
  | _ => false
  end.

Definition isNull (v : JsVal) : bool :=
  match v with JNull => true | _ => false end.

(** [v.key] for the property names the filter reads ([message], [error],
    [property], [constraints], [code], [meta], [target]): none of them is
    an index or a built-in of strings, arrays, numbers or booleans. *)
Definition js_get (v : JsVal) (key : string) : Js JsVal :=
  match v with
  | JUndefined =>
      Throw (TypeError ("Cannot read properties of undefined (reading '" ++ key ++ "')"))
  | JNull =>
      Throw (TypeError ("Cannot read properties of null (reading '" ++ key ++ "')"))
  | JObj props =>
      Normal (match assoc key props with Some x => x | None => JUndefined end)
  | _ => Normal JUndefined
  end.

(** [v?.key] *)
Definition js_get_opt (v : JsVal) (key : string) : JsVal :=
  match v with
  | JObj props => match assoc key props with Some x => x | None => JUndefined end
  | _ => JUndefined
  end.

(** [a ?? b] *)
Definition nullish_or (a b : JsVal) : JsVal :=
  if isNullish a then b else a.

(** [ToBoolean] *)
Definition truthy (v : JsVal) : bool :=
  match v with
  | JUndefined | JNull => false
  | JBool b => b
  | JNum n => negb (n =? 0)
  | JStr s => negb (String.eqb s EmptyString)
  | JArr _ | JObj _ => true
  end.

Definition isArray (v : JsVal) : bool :=
  match v with JArr _ => true | _ => false end.

Definition isString (v : JsVal) : bool :=
  match v with JStr _ => true | _ => false end.

(** [typeof v === 'object'] (arrays and [null] included). *)
Definition typeofObject (v : JsVal) : bool :=
  match v with JNull | JArr _ | JObj _ => true | _ => false end.

(** *** Numbers as text

    [Number::toString] on an integer-valued double: the shortest digit
    string that reads back as the same double, in plain decimal below
    10^21 and in exponent form from there on. *)

(** The decimal text of an integer. *)
Definition decimal (n : Z) : string :=
  NilZero.string_of_int (Z.to_int n).

Definition two53 : Z := 9007199254740992.

(** The double nearest to the integer [n >= 0], ties to the even
    significand; [None] when it overflows to [Infinity]. *)
Definition round_to_double (n : Z) : option Z :=
  if n <? two53 then Some n
  else
    let e := Z.log2 n - 52 in
    let q := Z.shiftr n e in
    let r := n - Z.shiftl q e in
    let half := Z.shiftl 1 (e - 1) in
    let q' := if (half <? r) || ((r =? half) && Z.odd q) then q + 1 else q in
    let v := Z.shiftl q' e in
    if 1024 <=? Z.log2 v then None else Some v.

Definition rounds_to (x v : Z) : bool :=
  match round_to_double v with
  | Some y => y =? x
  | None => false
  end.

(** The integer with [k] significant digits nearest to the double [x]
    (the even one of two equally near), if it reads back as [x]. *)
Definition nearest_with (k : nat) (x : Z) : option Z :=
  let p := 10 ^ (Z.of_nat (String.length (decimal x)) - Z.of_nat k) in
  let lo := x / p * p in
  let hi := lo + p in
  match rounds_to x lo, rounds_to x hi with
  | true, true =>
      if x - lo <? hi - x then Some lo
      else if hi - x <? x - lo then Some hi
      else if Z.even (x / p) then Some lo else Some hi
  | true, false => Some lo
  | false, true => Some hi
  | false, false => None
  end.

Fixpoint shortest_from (fuel k : nat) (x : Z) : Z :=
  match fuel with
  | O => x
  | S fuel' =>
      match nearest_with k x with
      | Some v => v
      | None => shortest_from fuel' (S k) x
      end
  end.

(** Seventeen significant digits always identify a double. *)
Definition shortest (x : Z) : Z := shortest_from 17 1 x.

Fixpoint strip_zeros (s : string) : string :=
  match s with
  | EmptyString => EmptyString
  | String c t =>
      match strip_zeros t with
      | EmptyString => if Ascii.eqb c "0" then EmptyString else String c EmptyString
      | t' => String c t'
      end
  end.

(** [d.ddde+x] *)
Definition exponent_form (v : Z) : string :=
  let e := decimal (Z.of_nat (String.length (decimal v)) - 1) in
  match strip_zeros (decimal v) with
  | String d EmptyString => String d ("e+" ++ e)
  | String d rest => String d ("." ++ rest ++ "e+" ++ e)
  | EmptyString => EmptyString
  end.

Definition magnitude_to_string (n : Z) : string :=
  match round_to_double n with
  | None => "Infinity"
  | Some x =>
      if x <? two53 then decimal x
      else
        let v := shortest x in
        if v <? 10 ^ 21 then decimal v else exponent_form v
  end.

(** [String(n)] and [`${n}`] for a number. *)
Definition num_to_string (n : Z) : string :=
  if n <? 0 then "-" ++ magnitude_to_string (- n) else magnitude_to_string n.

Definition join (sep : string) (l : list string) : string :=
  String.concat sep l.

(** [String(v)] for a value that is not an object. *)
Definition primitive_text (v : JsVal) : string :=
  match v with
  | JUndefined => "undefined"
  | JNull => "null"
  | JBool true => "true"
  | JBool false => "false"
  | JNum n => num_to_string n
  | JStr s => s
  | JArr _ | JObj _ => EmptyString
  end.

(** [String(v)].  An object is converted by its [toString] method: a plain
    object inherits the one that answers [[object Object]], unless an own
    member [toString] hides it; that member is not callable, the inherited
    [valueOf] answers the object itself, and the conversion raises.  An
    array is converted by [join], which converts its elements in turn. *)
Fixpoint js_String (v : JsVal) : Js string :=
  match v with
  | JArr l =>
      let! parts :=
        (fix each (l : list JsVal) : Js (list string) :=
           match l with
           | [] => Normal []
           | x :: t =>
               let! s := (if isNullish x then Normal EmptyString else js_String x) in
               let! ss := each t in
               Normal (s :: ss)
           end) l in
      Normal (join "," parts)
  | JObj props =>
      match assoc "toString" props with
      | Some _ => Throw (TypeError "Cannot convert object to primitive value")
      | None => Normal "[object Object]"
      end
  | _ => Normal (primitive_text v)
  end.

(** The text of one array element inside [join]. *)
Definition element_text (x : JsVal) : Js string :=
  if isNullish x then Normal EmptyString else js_String x.

(** [Array.prototype.join]: nullish elements render as the empty string. *)
Definition array_join (sep : string) (l : list JsVal) : Js string :=
  let! parts := mapM element_text l in
  Normal (join sep parts).

Definition isContinuation (c : ascii) : bool :=
  Nat.leb 128 (nat_of_ascii c) && Nat.ltb (nat_of_ascii c) 192.

(** The characters of a text, each with the bytes that continue it. *)
Fixpoint code_points (s : string) : list string :=
  match s with
  | EmptyString => []
  | String c t =>
      match code_points t with
      | g :: gs =>
          if match t with String d _ => isContinuation d | EmptyString => false end
          then String c g :: gs
          else String c EmptyString :: g :: gs
      | [] => [ String c EmptyString ]
      end
  end.

(** The indexed members of a string: its characters (one member for each
    character of the Basic Multilingual Plane). *)
Definition chars (s : string) : list JsVal :=
  List.map JStr (code_points s).

(** [Object.values(v)] for a truthy [v] (the filter guards the call). *)
Definition Object_values (v : JsVal) : Js (list JsVal) :=
  match v with
  | JUndefined | JNull =>
      Throw (TypeError "Cannot convert undefined or null to object")
  | JBool _ | JNum _ => Normal []
  | JStr s => Normal (chars s)
  | JArr l => Normal l
  | JObj props => Normal (List.map snd props)
  end.

(** *** [JSON.stringify]

    Strings are quoted with the escapes of the ECMAScript [QuoteJSONString]
    operation; [undefined] has no JSON text (array slots render it as
    [null], object properties holding it are dropped). *)

Definition dquote : string := String (ascii_of_nat 34) EmptyString.
Definition backslash : string := String (ascii_of_nat 92) EmptyString.

Definition hex_digit (n : nat) : string :=
  String.substring n 1 "0123456789abcdef".

Definition json_escape (c : ascii) : string :=
  let n := nat_of_ascii c in
  if Nat.eqb n 34 then backslash ++ dquote
  else if Nat.eqb n 92 then backslash ++ backslash
  else if Nat.eqb n 8 then backslash ++ "b"
  else if Nat.eqb n 12 then backslash ++ "f"
  else if Nat.eqb n 10 then backslash ++ "n"
  else if Nat.eqb n 13 then backslash ++ "r"
  else if Nat.eqb n 9 then backslash ++ "t"
  else if Nat.ltb n 32 then
    backslash ++ "u00" ++ hex_digit (Nat.div n 16) ++ hex_digit (Nat.modulo n 16)
  else String c EmptyString.

Fixpoint json_escape_all (s : string) : string :=
  match s with
  | EmptyString => EmptyString
  | String c t => json_escape c ++ json_escape_all t
  end.

Definition json_quote (s : string) : string :=
  dquote ++ json_escape_all s ++ dquote.

Fixpoint JSON_stringify (v : JsVal) : option string :=
  match v with
  | JUndefined => None
  | JNull => Some "null"
  | JBool true => Some "true"
  | JBool false => Some "false"
  | JNum n => Some (num_to_string n)
  | JStr s => Some (json_quote s)
  | JArr l =>
      Some ("[" ++ join ","
              (List.map (fun x => match JSON_stringify x with
                                  | Some t => t
                                  | None => "null"
                                  end) l) ++ "]")
  | JObj props =>
      Some ("{" ++ join ","
              ((fix members (ps : list (string * JsVal)) : list string :=
                  match ps with
                  | [] => []
                  | (k, x) :: t =>
                      match JSON_stringify x with
                      | Some txt => (json_quote k ++ ":" ++ txt) :: members t
                      | None => members t
                      end
                  end) props) ++ "}")
  end.

(** A template-literal hole [${e}] holding the result of [JSON.stringify]. *)
Definition interpolate (o : option string) : string :=
  match o with
  | Some s => s
  | None => "undefined"
  end.


(** ** Caught values

    [catch(exception: unknown)] receives an [HttpException] (which carries
    a status and a response payload), some other [Error] instance, or any
    other thrown value.  [err_props] holds the further own properties of an
    error object (a Prisma error carries [code] and [meta] there). *)

Record ErrorFields : Type := {
  err_message : string;
  err_stack : option string;
  err_props : list (string * JsVal)
}.

Inductive Exception : Type :=
| HttpException (status : Z) (response : JsVal) (err : ErrorFields)
| ErrorInstance (err : ErrorFields)
| ThrownValue (v : JsVal).

(** [exception instanceof HttpException] *)
Definition instanceofHttpException (e : Exception) : bool :=
  match e with HttpException _ _ _ => true | _ => false end.

(** [exception instanceof Error ? exception.message : fallback] *)
Definition messageOr (fallback : string) (e : Exception) : string :=
  match e with
  | HttpException _ _ err | ErrorInstance err => err_message err
  | ThrownValue _ => fallback
  end.

(** [exception instanceof Error ? exception.stack : undefined] *)
Definition stackOf (e : Exception) : option string :=
  match e with
  | HttpException _ _ err | ErrorInstance err => err_stack err
  | ThrownValue _ => None
  end.

(** [exception?.key] for the keys [code] and [meta]. *)
Definition exn_prop (e : Exception) (key : string) : JsVal :=
  match e with
  | HttpException _ _ err | ErrorInstance err =>
      match assoc key (err_props err) with Some x => x | None => JUndefined end
  | ThrownValue v => js_get_opt v key
  end.

(** ** The response shape ([ErrorResponseDto]) *)

Record ValidationErrorItem : Type := {
  field : JsVal;
  messages : list JsVal
}.

Record ErrorResponseDetails : Type := {
  errors : list ValidationErrorItem
}.

Record ErrorResponseDto : Type := {
  statusCode : Z;
  message : JsVal;
  error : JsVal;
  traceId : option string;
  details : option ErrorResponseDetails
}.

(** ** The filter *)

Definition PRISMA_UNIQUE_VIOLATION : string := "P2002".
Definition PRISMA_RECORD_NOT_FOUND : string := "P2025".

Definition BAD_REQUEST : Z := 400.
Definition UNAUTHORIZED : Z := 401.
Definition FORBIDDEN : Z := 403.
Definition NOT_FOUND : Z := 404.
Definition CONFLICT : Z := 409.
Definition INTERNAL_SERVER_ERROR : Z := 500.

Definition STATUS_TEXT : list (Z * string) :=
  [ (BAD_REQUEST, "Bad Request");
    (UNAUTHORIZED, "Unauthorized");
    (FORBIDDEN, "Forbidden");
    (NOT_FOUND, "Not Found");
    (CONFLICT, "Conflict");
    (INTERNAL_SERVER_ERROR, "Internal Server Error") ].

Definition getStatusText (statusCode : Z) : string :=
  match List.find (fun p => fst p =? statusCode) STATUS_TEXT with
  | Some p => snd p
  | None => "Error"
  end.

(** One element of a non-string message array, as the [map] callback of
    [formatValidationDetails] renders it. *)
Definition violation_item (e : JsVal) : Js ValidationErrorItem :=
  let! property := js_get e "property" in
  let! constraints := js_get e "constraints" in
  let! msgs :=
    (if truthy constraints then Object_values constraints
     else let! text := js_String e in Normal [JStr text]) in
  Normal {| field := nullish_or property (JStr "body"); messages := msgs |}.

(** The [errors] array built from a non-empty message array (the same
    expression occurs in both branches of [formatValidationDetails]). *)
Definition validation_errors (arr : list JsVal) : Js (list ValidationErrorItem) :=
  if forallb isString arr
  then Normal [ {| field := JStr "body"; messages := arr |} ]
  else mapM violation_item arr.

Definition formatValidationDetails (msg raw : JsVal)
  : Js (option ErrorResponseDetails) :=
  match msg with
  | JArr ((_ :: _) as arr) =>
      let! errs := validation_errors arr in
      Normal (Some {| errors := errs |})
  | _ =>
      let! rawMessage := js_get raw "message" in
      match rawMessage with
      | JArr ((_ :: _) as arr) =>
          let! errs := validation_errors arr in
          Normal (Some {| errors := errs |})
      | _ => Normal None
      end
  end.

Definition normalizeHttpException
    (status : Z) (raw : JsVal) (err : ErrorFields) (tid : option string)
  : Js ErrorResponseDto :=
  let statusText := getStatusText status in
  if typeofObject raw && negb (isNull raw) && negb (isArray raw) then
    let! msg := js_get raw "message" in
    let! dets := formatValidationDetails msg raw in
    let message :=
      match dets with
      | Some _ => JStr "Validation failed"
      | None =>
          nullish_or (nullish_or msg (JStr (err_message err)))
                     (JStr "Request failed")
      end in
    let! rawError := js_get raw "error" in
    Normal {| statusCode := status;
              message := message;
              error := nullish_or rawError (JStr statusText);
              traceId := tid;
              details := dets |}
  else
    let message :=
      match raw with JStr s => s | _ => err_message err end in
    Normal {| statusCode := status;
              message := nullish_or (JStr message) (JStr "Request failed");
              error := JStr statusText;
              traceId := tid;
              details := None |}.

(** [meta?.target?.join(', ')]: only an array has a [join] method; the
    result is a text, or [undefined] ([None]) when the chain stops short. *)
Definition joined_target (meta : JsVal) : Js (option string) :=
  let target := js_get_opt meta "target" in
  if isNullish target then Normal None
  else match target with
       | JArr l => let! text := array_join ", " l in Normal (Some text)
       | _ => Throw (TypeError "meta?.target?.join is not a function")
       end.

Definition strictEqStr (v : JsVal) (s : string) : bool :=
  match v with JStr t => String.eqb t s | _ => false end.

Definition tryMapPrismaError (exception : Exception) (tid : option string)
  : Js (option ErrorResponseDto) :=
  let code := exn_prop exception "code" in
  let meta := exn_prop exception "meta" in
  if strictEqStr code PRISMA_UNIQUE_VIOLATION then
    let! target := joined_target meta in
    Normal (Some {| statusCode := CONFLICT;
                    message :=
                      match target with
                      | Some (String c t) =>
                          JStr ("Duplicate value for field(s): " ++ String c t)
                      | _ => JStr "Resource already exists"
                      end;
                    error := JStr (getStatusText CONFLICT);
                    traceId := tid;
                    details := None |})
  else if strictEqStr code PRISMA_RECORD_NOT_FOUND then
    Normal (Some {| statusCode := NOT_FOUND;
                    message := JStr "Record not found";
                    error := JStr (getStatusText NOT_FOUND);
                    traceId := tid;
                    details := None |})
  else Normal None.

(** The part of [process.env] the filter reads. *)
Record ProcessEnv : Type := {
  NODE_ENV : option string
}.

Definition isProduction (env : ProcessEnv) : bool :=
  match NODE_ENV env with
  | Some v => String.eqb v "production"
  | None => false
  end.

Definition normalizeUnknownError
    (env : ProcessEnv) (exception : Exception) (tid : option string)
  : ErrorResponseDto :=
  let message := messageOr "Internal server error" exception in
  {| statusCode := INTERNAL_SERVER_ERROR;
     message := JStr (if isProduction env then "Internal server error" else message);
     error := JStr (getStatusText INTERNAL_SERVER_ERROR);
     traceId := tid;
     details := None |}.

Definition buildErrorResponse
    (env : ProcessEnv) (exception : Exception) (tid : option string)
  : Js ErrorResponseDto :=
  match exception with
  | HttpException status raw err => normalizeHttpException status raw err tid
  | _ =>
      let! prismaResult := tryMapPrismaError exception tid in
      match prismaResult with
      | Some r => Normal r
      | None => Normal (normalizeUnknownError env exception tid)
      end
  end.

(** ** Collaborators of the filter: trace context, logger, HTTP response *)

Definition CorrelationId : Type := string.

(** Modelled from the spec: the trace store behind [TraceContextService]
    (not among the sources) is a stack of request scopes, innermost first,
    each holding one correlation identifier; outside any scope it is
    empty. *)
Definition TraceStore : Type := list CorrelationId.

(** Modelled from the spec: [TraceContextService.getTraceId] returns the
    identifier of the innermost active scope, or nothing when no scope is
    active. *)
Definition getTraceId (store : TraceStore) : option CorrelationId :=
  match store with
  | [] => None
  | id :: _ => Some id
  end.

Inductive LogLevel : Type := LevelLog | LevelWarn | LevelError | LevelDebug.

Record LogEntry : Type := {
  level : LogLevel;
  line : string;
  trace : option string
}.

(** Modelled from the spec: [TraceLoggerService] (not among the sources)
    formats each line as [[traceId=<id>] <message>] when the trace context
    yields an identifier, and leaves the message unchanged otherwise. *)
Definition formatLine (store : TraceStore) (msg : string) : string :=
  match getTraceId store with
  | Some id => "[traceId=" ++ id ++ "] " ++ msg
  | None => msg
  end.

Record HttpResponse : Type := {
  sentStatus : Z;
  sentBody : ErrorResponseDto
}.

(** What a request handler can observe and change: the trace store, the
    operational log (oldest entry first) and the responses written. *)
Record World : Type := {
  traceStore : TraceStore;
  logSink : list LogEntry;
  sent : list HttpResponse
}.

Definition writeLog (lvl : LogLevel) (msg : string) (stack : option string)
    (w : World) : World :=
  {| traceStore := traceStore w;
     logSink := logSink w ++
                [ {| level := lvl;
                     line := formatLine (traceStore w) msg;
                     trace := stack |} ];
     sent := sent w |}.

(** [traceLogger.warn(message)] *)
Definition warn (msg : string) (w : World) : World :=
  writeLog LevelWarn msg None w.

(** [traceLogger.error(message, trace)] *)
Definition logError (msg : string) (stack : option string) (w : World) : World :=
  writeLog LevelError msg stack w.

(** [response.status(statusCode).json(body)] *)
Definition sendJson (code : Z) (body : ErrorResponseDto) (w : World) : World :=
  {| traceStore := traceStore w;
     logSink := logSink w;
     sent := sent w ++ [ {| sentStatus := code; sentBody := body |} ] |}.

(** [AllExceptionsFilter.catch] *)
Definition catch_ (env : ProcessEnv) (exception : Exception) (w : World)
  : Js unit * World :=
  let tid := getTraceId (traceStore w) in
  match buildErrorResponse env exception tid with
  | Throw e => (Throw e, w)
  | Normal body =>
      let code := statusCode body in
      let w1 :=
        if instanceofHttpException exception then
          warn ("HttpException " ++ num_to_string code ++ ": "
                ++ interpolate (JSON_stringify (message body))) w
        else if code >=? 500 then
          logError (messageOr "Unknown error" exception) (stackOf exception) w
        else w in
      (Normal tt, sendJson code body w1)
  end.

(** *** The body on the wire

    The object literal the filter builds, and the properties of it that
    [response.json] serialises: a property holding [undefined] is left out
    of the JSON text. *)

Definition item_object (it : ValidationErrorItem) : JsVal :=
  JObj [ ("field", field it); ("messages", JArr (messages it)) ].

Definition details_object (d : ErrorResponseDetails) : JsVal :=
  JObj [ ("errors", JArr (List.map item_object (errors d))) ].

Definition dto_object (body : ErrorResponseDto) : JsVal :=
  JObj ([ ("statusCode", JNum (statusCode body));
          ("message", message body);
          ("error", error body);
          ("traceId", match traceId body with
                      | Some id => JStr id
                      | None => JUndefined
                      end) ]
        ++ match details body with
           | Some d => [ ("details", details_object d) ]
           | None => []
           end).

Definition serialised_props (v : JsVal) : list (string * JsVal) :=
  match v with
  | JObj props =>
      List.filter (fun kv => match JSON_stringify (snd kv) with
                             | Some _ => true
                             | None => false
                             end) props
  | _ => []
  end.

(** The JSON text written for [body]. *)
Definition wire_text (body : ErrorResponseDto) : string :=
  interpolate (JSON_stringify (dto_object body)).

(** ** The students service *)

Module Students.

Record StudentModel : Type := {
  id : string;
  name : string;
  age : Z;
  grade : Z;
  isActive : bool;
  createdAt : Z
}.

(** [{ affected?: number | null }] *)
Record DeleteResult : Type := {
  affected : JsVal
}.

(** A repository call settles with a value or rejects with a failure. *)
Definition Async (A : Type) : Type := Completion Exception A.

(** [IStudentRepository], the operation [remove] consumes, over a store
    of type [R]. *)
Class IStudentRepository (R : Type) : Type := {
  repo_delete : string -> R -> Async DeleteResult * R
}.

(** The framework's [NotFoundException(message)]: an [HttpException] of
    status 404 whose response body is [{message, error, statusCode}].
    The engine-made stack text is left out; the filter never reads the
    stack of an [HttpException]. *)
Definition NotFoundException (msg : string) : Exception :=
  HttpException NOT_FOUND
    (JObj [ ("message", JStr msg);
            ("error", JStr "Not Found");
            ("statusCode", JNum NOT_FOUND) ])
    {| err_message := msg; err_stack := None; err_props := [] |}.

(** [v === n] for a number literal [n] *)
Definition strictEqNum (v : JsVal) (n : Z) : bool :=
  match v with JNum m => m =? n | _ => false end.

(** [StudentsService.remove] *)
Definition remove {R} `{IStudentRepository R} (ident : string) (db : R)
  : Async unit * R :=
  match repo_delete ident db with
  | (Throw e, db') => (Throw e, db')
  | (Normal result, db') =>
      if strictEqNum (affected result) 0
      then (Throw (NotFoundException ("Student " ++ ident ++ " not found")), db')
      else (Normal tt, db')
  end.

(** Modelled from the spec: the persistence adapter behind
    [IStudentRepository] (its implementation is not among the sources).
    The table maps identifiers to records; [delete] of an identifier
    removes its row when there is one and reports how many rows were
    affected, and an identifier that is not stored is not a failure: the
    count is zero. *)
Definition table_delete (ident : string) (t : gmap string StudentModel)
  : Async DeleteResult * gmap string StudentModel :=
  match t !! ident with
  | Some _ => (Normal {| affected := JNum 1 |}, delete ident t)
  | None => (Normal {| affected := JNum 0 |}, t)
  end.

#[global] Instance table_repository : IStudentRepository (gmap string StudentModel) :=
  {| repo_delete := table_delete |}.

End Students.

(** ** The students service: lookups, updates, creation *)

Module StudentsApi.

(** [StudentResponseDto] *)
Record StudentResponseDto : Type := {
  id : string;
  name : string;
  age : Z;
  grade : Z;
  isActive : bool;
  createdAt : string
}.

(** [Partial<StudentModel>]: any subset of the fields of a student. *)
Record PartialStudent : Type := {
  p_id : option string;
  p_name : option string;
  p_age : option Z;
  p_grade : option Z;
  p_isActive : option bool;
  p_createdAt : option Z
}.

(** [CreateStudentDto] (its declaration is not among the sources): the
    four members [create] reads. *)
Record CreateStudentDto : Type := {
  c_name : string;
  c_age : Z;
  c_grade : Z;
  c_isActive : option bool
}.

(** [UpdateStudentDto]: handed to [merge] as a [Partial<StudentModel>]. *)
Definition UpdateStudentDto : Type := PartialStudent.

Inductive Direction : Type := ASC | DESC.

(** The options of [find]. *)
Record FindOptions : Type := {
  where_ : option PartialStudent;
  order : list (string * Direction)
}.

(** [IStudentRepository] with the operations the service consumes besides
    [delete].  [create] and [merge] are synchronous; the others settle or
    reject.  ([getAverageGrade], a floating-point average handed through
    unchanged, and [seedIfEmpty] are left out.) *)
Class IStudentRepository (R : Type) : Type := {
  deleting :: Students.IStudentRepository R;
  repo_create : PartialStudent -> Students.StudentModel;
  repo_save : Students.StudentModel -> R ->
              Students.Async Students.StudentModel * R;
  repo_find : FindOptions -> R ->
              Students.Async (list Students.StudentModel) * R;
  repo_findOneBy : PartialStudent -> R ->
                   Students.Async (option Students.StudentModel) * R;
  repo_merge : Students.StudentModel -> PartialStudent -> Students.StudentModel;
  repo_count : R -> Students.Async Z * R;
  repo_findWithGradeGreaterOrEqual : Z -> R ->
                                     Students.Async (list Students.StudentModel) * R
}.

(** The criteria [{ id }]. *)
Definition byId (ident : string) : PartialStudent :=
  {| p_id := Some ident; p_name := None; p_age := None; p_grade := None;
     p_isActive := None; p_createdAt := None |}.

Section Service.

Context {R : Type} {repo : IStudentRepository R}.

(** [Date.prototype.toISOString], on the instant held in [createdAt]. *)
Variable toISOString : Z -> string.

(** [toStudentResponseDto] (and the older private [mapToResponse]) *)
Definition toStudentResponseDto (model : Students.StudentModel)
  : StudentResponseDto :=
  {| id := Students.id model;
     name := Students.name model;
     age := Students.age model;
     grade := Students.grade model;
     isActive := Students.isActive model;
     createdAt := toISOString (Students.createdAt model) |}.

(** [StudentsService.create] *)
Definition create (dto : CreateStudentDto) (db : R)
  : Students.Async StudentResponseDto * R :=
  let model :=
    repo_create {| p_id := None;
                   p_name := Some (c_name dto);
                   p_age := Some (c_age dto);
                   p_grade := Some (c_grade dto);
                   p_isActive := c_isActive dto;
                   p_createdAt := None |} in
  match repo_save model db with
  | (Throw e, db') => (Throw e, db')
  | (Normal saved, db') => (Normal (toStudentResponseDto saved), db')
  end.

(** [StudentsService.findAll] *)
Definition findAll (db : R) : Students.Async (list StudentResponseDto) * R :=
  match repo_find {| where_ := None; order := [ ("createdAt", ASC) ] |} db with
  | (Throw e, db') => (Throw e, db')
  | (Normal models, db') => (Normal (List.map toStudentResponseDto models), db')
  end.

(** [StudentsService.findById] *)
Definition findById (ident : string) (db : R) (w : World)
  : Students.Async StudentResponseDto * R * World :=
  match repo_findOneBy (byId ident) db with
  | (Throw e, db') => (Throw e, db', w)
  | (Normal None, db') =>
      let w' := warn ("Student not found: " ++ ident) w in
      (Throw (Students.NotFoundException ("Student " ++ ident ++ " not found")),
       db', w')
  | (Normal (Some model), db') => (Normal (toStudentResponseDto model), db', w)
  end.

(** [StudentsService.update] *)
Definition update (ident : string) (dto : UpdateStudentDto) (db : R) (w : World)
  : Students.Async StudentResponseDto * R * World :=
  match repo_findOneBy (byId ident) db with
  | (Throw e, db') => (Throw e, db', w)
  | (Normal None, db') =>
      let w' := warn ("Student not found: " ++ ident) w in
      (Throw (Students.NotFoundException ("Student " ++ ident ++ " not found")),
       db', w')
  | (Normal (Some model), db') =>
      let merged := repo_merge model dto in
      match repo_save merged db' with
      | (Throw e, db'') => (Throw e, db'', w)
      | (Normal saved, db'') => (Normal (toStudentResponseDto saved), db'', w)
      end
  end.

(** [StudentsService.passed]: [minGrade] defaults to 50 when left out. *)
Definition passed (minGrade : option Z) (db : R)
  : Students.Async (list StudentResponseDto) * R :=
  let threshold := match minGrade with Some g => g | None => 50 end in
  match repo_findWithGradeGreaterOrEqual threshold db with
  | (Throw e, db') => (Throw e, db')
  | (Normal models, db') => (Normal (List.map toStudentResponseDto models), db')
  end.

End Service.

End StudentsApi.

(** ** Seeding the database

    The seed services talk to the Prisma client.  The database is the four
    tables the migrations declare, each in storage order, with the
    constraints of [migration.sql]: primary keys on [id], unique
    [teachers.email] and [courses.code], the foreign key
    [courses.teacherId -> teachers.id], and the join table
    [_CourseToStudent] (A a course, B a student) with primary key (A, B).
    Columns the database fills in by default ([createdAt]) are left out. *)

Module Seeding.

Record Teacher : Type := {
  t_id : string;
  t_fullName : string;
  t_email : string
}.

Record Course : Type := {
  c_id : string;
  c_title : string;
  c_code : string;
  c_teacherId : string
}.

Record Student : Type := {
  s_id : string;
  s_name : string;
  s_age : Z;
  s_grade : Z;
  s_isActive : bool
}.

Record Database : Type := {
  teachers : list Teacher;
  courses : list Course;
  students : list Student;
  courseToStudent : list (string * string)
}.

(** A database call settles with a value or rejects, and leaves a
    database behind. *)
Definition Db (A : Type) : Type := Database -> Completion Exception A * Database.

Definition andThen {A B : Type} (m : Db A) (k : A -> Db B) : Db B :=
  fun db =>
    match m db with
    | (Normal a, db') => k a db'
    | (Throw e, db') => (Throw e, db')
    end.

Definition resolved {A : Type} (a : A) : Db A := fun db => (Normal a, db).

(** The client's known-request error, of which only the code is kept. *)
Definition prismaError (code msg : string) : Exception :=
  ErrorInstance {| err_message := msg;
                   err_stack := None;
                   err_props := [ ("code", JStr code) ] |}.

Definition mem (x : string) (l : list string) : bool :=
  existsb (String.eqb x) l.

Fixpoint distinct (l : list string) : bool :=
  match l with
  | [] => true
  | x :: t => negb (mem x t) && distinct t
  end.

(** *** The client calls the seed services make *)

(** [prisma.teacher.count()] *)
Definition teacher_count : Db Z :=
  fun db => (Normal (Z.of_nat (length (teachers db))), db).

(** [prisma.teacher.createMany({ data })]: one statement, all rows or
    none. *)
Definition teacher_createMany (data : list Teacher) : Db Z :=
  fun db =>
    if distinct (List.map t_id (teachers db ++ data))
       && distinct (List.map t_email (teachers db ++ data))
    then (Normal (Z.of_nat (length data)),
          {| teachers := teachers db ++ data;
             courses := courses db;
             students := students db;
             courseToStudent := courseToStudent db |})
    else (Throw (prismaError "P2002" "Unique constraint failed"), db).

(** [prisma.course.count()] *)
Definition course_count : Db Z :=
  fun db => (Normal (Z.of_nat (length (courses db))), db).

(** [prisma.course.createMany({ data })] *)
Definition course_createMany (data : list Course) : Db Z :=
  fun db =>
    if negb (distinct (List.map c_id (courses db ++ data))
             && distinct (List.map c_code (courses db ++ data)))
    then (Throw (prismaError "P2002" "Unique constraint failed"), db)
    else if negb (forallb (fun c => mem (c_teacherId c) (List.map t_id (teachers db)))
                          data)
    then (Throw (prismaError "P2003" "Foreign key constraint violated"), db)
    else (Normal (Z.of_nat (length data)),
          {| teachers := teachers db;
             courses := courses db ++ data;
             students := students db;
             courseToStudent := courseToStudent db |}).

(** [prisma.student.count()] *)
Definition student_count : Db Z :=
  fun db => (Normal (Z.of_nat (length (students db))), db).

(** [prisma.student.createMany({ data })] *)
Definition student_createMany (data : list Student) : Db Z :=
  fun db =>
    if distinct (List.map s_id (students db ++ data))
    then (Normal (Z.of_nat (length data)),
          {| teachers := teachers db;
             courses := courses db;
             students := students db ++ data;
             courseToStudent := courseToStudent db |})
    else (Throw (prismaError "P2002" "Unique constraint failed"), db).

(** [prisma.student.findMany({ select: { id: true }, take: 20 })] *)
Definition student_findMany_take20 : Db (list string) :=
  fun db => (Normal (List.map s_id (firstn 20 (students db))), db).

Fixpoint insert_by_code (le : string -> string -> bool) (c : Course)
    (l : list Course) : list Course :=
  match l with
  | [] => [ c ]
  | x :: t =>
      if le (c_code c) (c_code x) then c :: x :: t
      else x :: insert_by_code le c t
  end.

(** [ORDER BY code ASC] under the collation [le] of the database. *)
Definition sort_by_code (le : string -> string -> bool) (l : list Course)
  : list Course :=
  fold_right (insert_by_code le) [] l.

(** [prisma.course.findMany({ select: { id: true }, orderBy: { code: 'asc' } })] *)
Definition course_findMany_by_code (le : string -> string -> bool)
  : Db (list string) :=
  fun db => (Normal (List.map c_id (sort_by_code le (courses db))), db).

Definition same_pair (p q : string * string) : bool :=
  String.eqb (fst p) (fst q) && String.eqb (snd p) (snd q).

(** Student [studentId] is enrolled in course [courseId]. *)
Definition enrolled (studentId courseId : string) (db : Database) : bool :=
  existsb (same_pair (courseId, studentId)) (courseToStudent db).

(** [prisma.student.findFirst({ where: { id: studentId,
    courses: { some: { id: courseId } } } })] *)
Definition student_findFirst_enrolled (studentId courseId : string)
  : Db (option Student) :=
  fun db =>
    (Normal (if enrolled studentId courseId db
             then List.find (fun st => String.eqb (s_id st) studentId) (students db)
             else None), db).

(** [prisma.student.update({ where: { id: studentId },
    data: { courses: { connect: { id: courseId } } } })]: both records
    must exist; connecting what is connected changes nothing. *)
Definition student_connect_course (studentId courseId : string) : Db unit :=
  fun db =>
    if negb (mem studentId (List.map s_id (students db)))
    then (Throw (prismaError "P2025" "Record to update not found"), db)
    else if negb (mem courseId (List.map c_id (courses db)))
    then (Throw (prismaError "P2025" "Required connected records were not found"), db)
    else if enrolled studentId courseId db then (Normal tt, db)
    else (Normal tt,
          {| teachers := teachers db;
             courses := courses db;
             students := students db;
             courseToStudent := courseToStudent db ++ [ (courseId, studentId) ] |}).

(** *** The seed data *)

Definition teachersSeedData : list Teacher :=
  [ {| t_id := "a1000000-0000-4000-8000-000000000001";
       t_fullName := "Dr. Jane Smith";
       t_email := "jane.smith@school.edu" |};
    {| t_id := "a1000000-0000-4000-8000-000000000002";
       t_fullName := "Prof. John Doe";
       t_email := "john.doe@school.edu" |} ].

Definition TEACHER_1_ID : string := "a1000000-0000-4000-8000-000000000001".
Definition TEACHER_2_ID : string := "a1000000-0000-4000-8000-000000000002".

Definition coursesSeedData : list Course :=
  [ {| c_id := "b2000000-0000-4000-8000-000000000001";
       c_title := "Mathematics 101"; c_code := "MATH101";
       c_teacherId := TEACHER_1_ID |};
    {| c_id := "b2000000-0000-4000-8000-000000000002";
       c_title := "Physics 101"; c_code := "PHYS101";
       c_teacherId := TEACHER_1_ID |};
    {| c_id := "b2000000-0000-4000-8000-000000000003";
       c_title := "Introduction to Programming"; c_code := "CS101";
       c_teacherId := TEACHER_2_ID |};
    {| c_id := "b2000000-0000-4000-8000-000000000004";
       c_title := "Database Systems"; c_code := "CS201";
       c_teacherId := TEACHER_2_ID |} ].

(** A row of [studentsSeedData] ([students/seed.ts] is not among the
    sources): the members the seed service reads, [isActive] optional. *)
Record SeedStudent : Type := {
  row_id : string;
  row_name : string;
  row_age : Z;
  row_grade : Z;
  row_isActive : option bool
}.

(** *** The seed services *)

(** [TeachersSeedService.seed] *)
Definition teachers_seed : Db unit :=
  andThen teacher_count (fun count =>
    if count >? 0 then resolved tt
    else andThen (teacher_createMany teachersSeedData) (fun _ => resolved tt)).

(** [CoursesSeedService.seed] *)
Definition courses_seed : Db unit :=
  andThen course_count (fun count =>
    if count >? 0 then resolved tt
    else andThen (course_createMany coursesSeedData) (fun _ => resolved tt)).

(** The [enrollments] array of [seedCourseEnrollments]: student [i] with
    course [i % courses.length], for [i < Math.min(students.length, 6)]. *)
Definition enrollmentPlan (studentIds courseIds : list string)
  : list (string * string) :=
  List.map (fun i => (nth i studentIds EmptyString,
                      nth (i mod length courseIds) courseIds EmptyString))
           (seq 0 (Nat.min (length studentIds) 6)).

(** The loop over [enrollments]: skip the pairs already connected. *)
Fixpoint connectAll (plan : list (string * string)) : Db unit :=
  match plan with
  | [] => resolved tt
  | (studentId, courseId) :: rest =>
      andThen (student_findFirst_enrolled studentId courseId) (fun existing =>
        match existing with
        | Some _ => connectAll rest
        | None =>
            andThen (student_connect_course studentId courseId)
                    (fun _ => connectAll rest)
        end)
  end.

Section StudentsSeed.

(** The collation of the database and the rows of [studentsSeedData]. *)
Variable le : string -> string -> bool.
Variable studentsSeedData : list SeedStudent.

(** [StudentsSeedService.seedCourseEnrollments] *)
Definition seedCourseEnrollments : Db unit :=
  andThen student_findMany_take20 (fun studentIds =>
  andThen (course_findMany_by_code le) (fun courseIds =>
    if (Nat.eqb (length studentIds) 0 || Nat.eqb (length courseIds) 0)%bool
    then resolved tt
    else connectAll (enrollmentPlan studentIds courseIds))).

(** [StudentsSeedService.seed] *)
Definition students_seed : Db unit :=
  andThen student_count (fun studentCount =>
  andThen (if studentCount =? 0
           then andThen
                  (student_createMany
                     (List.map (fun row =>
                                  {| s_id := row_id row;
                                     s_name := row_name row;
                                     s_age := row_age row;
                                     s_grade := row_grade row;
                                     s_isActive :=
                                       match row_isActive row with
                                       | Some b => b
                                       | None => true
                                       end |})
                               studentsSeedData))
                  (fun _ => resolved tt)
           else resolved tt)
          (fun _ => seedCourseEnrollments)).

(** [AppSeedService.onApplicationBootstrap] *)
Definition onApplicationBootstrap : Db unit :=
  andThen teachers_seed (fun _ =>
  andThen courses_seed (fun _ => students_seed)).

End StudentsSeed.

End Seeding.

(** ** The data source of the migration tool

    [data-source.ts] reads the connection settings from [process.env], a
    map from variable names to texts.  The entity and migration paths,
    which depend on [__dirname], are left out. *)

Module DataSource.

(** [StrWhiteSpaceChar] in the ASCII range: tab, line feed, vertical tab,
    form feed, carriage return, space. *)
Definition isAsciiWhiteSpace (c : ascii) : bool :=
  let n := nat_of_ascii c in
  Nat.eqb n 9 || Nat.eqb n 10 || Nat.eqb n 11 || Nat.eqb n 12
  || Nat.eqb n 13 || Nat.eqb n 32.

(** [StrWhiteSpaceChar] beyond the ASCII range, by the bytes of its UTF-8
    text: U+00A0; U+1680; U+2000 to U+200A, U+2028, U+2029, U+202F;
    U+205F; U+3000; U+FEFF. *)
Definition isWideWhiteSpace2 (a b : nat) : bool :=
  Nat.eqb a 194 && Nat.eqb b 160.

Definition isWideWhiteSpace3 (a b c : nat) : bool :=
  Nat.eqb a 225 && Nat.eqb b 154 && Nat.eqb c 128
  || Nat.eqb a 226 && Nat.eqb b 128
     && (Nat.leb 128 c && Nat.leb c 138 || Nat.eqb c 168 || Nat.eqb c 169
         || Nat.eqb c 175)
  || Nat.eqb a 226 && Nat.eqb b 129 && Nat.eqb c 159
  || Nat.eqb a 227 && Nat.eqb b 128 && Nat.eqb c 128
  || Nat.eqb a 239 && Nat.eqb b 187 && Nat.eqb c 191.

(** The text without its first character, when that is a blank. *)
Definition skipWhiteSpace (s : string) : option string :=
  match s with
  | String a t =>
      if isAsciiWhiteSpace a then Some t
      else
        match t with
        | String b u =>
            if isWideWhiteSpace2 (nat_of_ascii a) (nat_of_ascii b) then Some u
            else
              match u with
              | String c v =>
                  if isWideWhiteSpace3 (nat_of_ascii a) (nat_of_ascii b) (nat_of_ascii c)
                  then Some v
                  else None
              | EmptyString => None
              end
        | EmptyString => None
        end
  | EmptyString => None
  end.

Fixpoint trimStart_upto (fuel : nat) (s : string) : string :=
  match fuel with
  | O => s
  | S fuel' =>
      match skipWhiteSpace s with
      | Some t => trimStart_upto fuel' t
      | None => s
      end
  end.

(** [TrimString(s, start)]: a text has no more blanks than bytes. *)
Definition trimStart (s : string) : string :=
  trimStart_upto (String.length s) s.

Definition digitValue (c : ascii) : option Z :=
  let n := nat_of_ascii c in
  if Nat.leb 48 n && Nat.leb n 57 then Some (Z.of_nat (n - 48)) else None.

(** The value of the longest prefix of decimal digits; [None] when there
    is no digit to read. *)
Fixpoint digits (s : string) (acc : option Z) : option Z :=
  match s with
  | EmptyString => acc
  | String c t =>
      match digitValue c with
      | Some d =>
          digits t (Some (10 * (match acc with Some a => a | None => 0 end) + d))
      | None => acc
      end
  end.

(** The numbers [parseInt] answers: [NaN], an infinity, the negative
    zero, or an integer that a double holds. *)
Inductive Number : Type :=
| NaN
| Infinite (negative : bool)
| NegativeZero
| Finite (n : Z).

(** The number for the integer [m >= 0] read after the sign. *)
Definition toNumber (negative : bool) (m : Z) : Number :=
  match round_to_double m with
  | None => Infinite negative
  | Some v =>
      if negative then (if v =? 0 then NegativeZero else Finite (- v))
      else Finite v
  end.

(** [parseInt(s, 10)]: blanks are skipped, one sign is read, then the
    longest run of decimal digits; without a digit the answer is [NaN],
    otherwise the double nearest to the integer read. *)
Definition parseInt10 (s : string) : Number :=
  match trimStart s with
  | String c t =>
      if Ascii.eqb c "-" then
        match digits t None with Some m => toNumber true m | None => NaN end
      else if Ascii.eqb c "+" then
        match digits t None with Some m => toNumber false m | None => NaN end
      else
        match digits (String c t) None with Some m => toNumber false m | None => NaN end
  | EmptyString => NaN
  end.

(** The options handed to [new DataSource], all of type ['postgres']:
    a connection URL, or host, port, user, password and database. *)
Inductive DbConfig : Type :=
| UrlConfig (url : string)
| HostConfig (host : string) (port : Number)
             (username password database : string).

(** [process.env.KEY ?? fallback] *)
Definition envOr (env : gmap string string) (key fallback : string) : string :=
  match env !! key with
  | Some v => v
  | None => fallback
  end.

(** [dbConfig] *)
Definition dbConfig (env : gmap string string) : DbConfig :=
  match env !! "DATABASE_URL" with
  | Some (String c t) => UrlConfig (String c t)
  | _ =>
      HostConfig (envOr env "DB_HOST" "localhost")
                 (parseInt10 (envOr env "DB_PORT" "5432"))
                 (envOr env "DB_USERNAME" "postgres")
                 (envOr env "DB_PASSWORD" EmptyString)
                 (envOr env "DB_NAME" "students_db")
  end.

(** The text starts, after blanks and an optional sign, with a digit. *)
Definition startsWithInteger (s : string) : bool :=
  match trimStart s with
  | String c t =>
      if Ascii.eqb c "-" || Ascii.eqb c "+"
      then match t with
           | String d _ => match digitValue d with Some _ => true | None => false end
           | EmptyString => false
           end
      else match digitValue c with Some _ => true | None => false end
  | EmptyString => false
  end.

(** The port of a configuration ([None] when it connects by URL). *)
Definition portOf (c : DbConfig) : option Number :=
  match c with
  | UrlConfig _ => None
  | HostConfig _ p _ _ _ => Some p
  end.

End DataSource.

(** ** Payload shapes and sample failures *)

Definition nonempty_string (v : JsVal) : bool :=
  match v with
  | JStr s => negb (String.eqb s EmptyString)
  | _ => false
  end.

(** A per-field violation record: an object whose [property] is a
    non-empty text, the name of the field, and whose [constraints] is a
    non-empty map from rule names to messages; a record without
    constraints counts when no [toString] member of its own stands in the
    way of its text. *)
Definition is_violation_record (v : JsVal) : bool :=
  match v with
  | JObj props =>
      match assoc "property" props with
      | Some p => nonempty_string p
      | None => false
      end
      &&
      match assoc "constraints" props with
      | Some (JObj (_ :: _)) => true
      | None | Some JUndefined =>
          match assoc "toString" props with
          | Some _ => false
          | None => true
          end
      | Some _ => false
      end
  | _ => false
  end.

(** A record that carries a [constraints] map, whatever else it holds. *)
Definition carries_constraints (v : JsVal) : bool :=
  match v with
  | JObj props =>
      match assoc "constraints" props with
      | Some (JObj _) => true
      | _ => false
      end
  | _ => false
  end.

(** The message sequence carried by a response payload. *)
Definition message_array (raw : JsVal) : list JsVal :=
  match raw with
  | JObj props =>
      match assoc "message" props with
      | Some (JArr l) => l
      | _ => []
      end
  | _ => []
  end.

(** The validation-shape test on a payload: a non-empty sequence of plain
    strings or of violation records. *)
Definition is_validation_payload (raw : JsVal) : bool :=
  match message_array raw with
  | [] => false
  | arr => forallb isString arr || forallb is_violation_record arr
  end.

(** [String(v)] has a result: no object with an own [toString] member is
    met on the way. *)
Fixpoint stringifiable (v : JsVal) : bool :=
  match v with
  | JArr l => forallb (fun x => isNullish x || stringifiable x) l
  | JObj props =>
      match assoc "toString" props with
      | Some _ => false
      | None => true
      end
  | _ => true
  end.

(** The entry is one the [map] callback of the formatter can render: it is
    neither [null] nor [undefined], and it has truthy [constraints] or a
    text. *)
Definition entry_renders (e : JsVal) : bool :=
  negb (isNullish e)
  && (truthy (js_get_opt e "constraints") || stringifiable e).

(** The payload's message sequence is made of strings only, or of entries
    the formatter can render. *)
Definition payload_renders (raw : JsVal) : bool :=
  forallb isString (message_array raw)
  || forallb entry_renders (message_array raw).

(** [join] has a result on the array. *)
Definition joinable (target : JsVal) : bool :=
  match target with
  | JArr l => forallb (fun x => isNullish x || stringifiable x) l
  | _ => false
  end.

(** The field name of an entry built from the record [r], as a text. *)
Definition field_name (r : JsVal) : string :=
  match nullish_or (js_get_opt r "property") (JStr "body") with
  | JStr s => s
  | _ => EmptyString
  end.

(** The field names occurring in a sequence of records, without repeats. *)
Definition distinct_fields (arr : list JsVal) : list string :=
  nodup string_dec (List.map field_name arr).

Definition age_violation (rule text : string) : JsVal :=
  JObj [ ("property", JStr "age");
         ("constraints", JObj [ (rule, JStr text) ]) ].

Definition repeated_age_payload : list JsVal :=
  [ age_violation "min" "age must not be less than 6";
    age_violation "isInt" "age must be an integer number" ].

Definition unprocessable_payload : JsVal :=
  JObj [ ("message", JArr [ JStr "name should not be empty" ]);
         ("error", JStr "Unprocessable Entity");
         ("statusCode", JNum 422) ].

Definition plain_error (msg : string) : ErrorFields :=
  {| err_message := msg; err_stack := None; err_props := [] |}.

Definition duplicate_registration : JsVal :=
  JObj [ ("message", JArr [ JStr "email already registered";
                            JStr "name already registered" ]);
         ("error", JStr "Conflict") ].

Definition empty_world : World :=
  {| traceStore := []; logSink := []; sent := [] |}.

Definition production : ProcessEnv := {| NODE_ENV := Some "production" |}.
Definition development : ProcessEnv := {| NODE_ENV := Some "development" |}.


(** A Prisma known-request error with code P2002 and the given
    [meta.target]. *)
Definition unique_violation (target : JsVal) : Exception :=
  ErrorInstance
    {| err_message := "Unique constraint failed on the fields: (`email`)";
       err_stack := Some "PrismaClientKnownRequestError: Unique constraint failed";
       err_props := [ ("code", JStr "P2002");
                      ("meta", JObj [ ("target", target) ]) ] |}.

Definition connection_dropped : Exception :=
  ErrorInstance
    {| err_message := "Can't reach database server at db:5432";
       err_stack := Some "PrismaClientInitializationError: Can't reach database server";
       err_props := [ ("errorCode", JStr "P1001") ] |}.

Definition in_request (id : CorrelationId) : World :=
  {| traceStore := [ id ]; logSink := []; sent := [] |}.

(** The envelope every unknown failure gets in production mode. *)
Definition opaque_envelope (tid : option string) : ErrorResponseDto :=
  {| statusCode := 500;
     message := JStr "Internal server error";
     error := JStr "Internal Server Error";
     traceId := tid;
     details := None |}.

Definition null_entry_payload : JsVal :=
  JObj [ ("message", JArr [ JNull ]);
         ("error", JStr "Bad Request");
         ("statusCode", JNum 400) ].

Definition no_students : gmap string Students.StudentModel := empty.

(** ** Shapes the filter does not check *)

(** [v] is a plain object (neither a primitive, nor [null], nor an array). *)
Definition isPlainObject (v : JsVal) : bool :=
  match v with JObj _ => true | _ => false end.

(** [v] is a string, a number or a boolean. *)
Definition isPrimitive (v : JsVal) : bool :=
  match v with JBool _ | JNum _ | JStr _ => true | _ => false end.

(** The payload's [message] is a non-empty array (the test with which
    [formatValidationDetails] decides to build details). *)
Definition has_message_array (props : list (string * JsVal)) : bool :=
  match assoc "message" props with
  | Some (JArr (_ :: _)) => true
  | _ => false
  end.

(** The failures on which the filter's own code raises: an [HttpException]
    whose message sequence, not made of strings only, holds an entry the
    formatter cannot render, and a failure with the unique-violation code
    whose [meta.target] is present and cannot be joined. *)
Definition raises_on (e : Exception) : bool :=
  match e with
  | HttpException _ raw _ => negb (payload_renders raw)
  | _ =>
      strictEqStr (exn_prop e "code") PRISMA_UNIQUE_VIOLATION
      && negb (isNullish (js_get_opt (exn_prop e "meta") "target"))
      && negb (joinable (js_get_opt (exn_prop e "meta") "target"))
  end.

(** An entry without constraints whose own [toString] member hides the
    inherited method. *)
Definition unconvertible_entry : JsVal :=
  JObj [ ("property", JStr "age"); ("toString", JStr "x") ].

(** An in-memory repository and a fixed clock text, as sample arguments
    of the service. *)
Definition sample_repository
  : StudentsApi.IStudentRepository (gmap string Students.StudentModel) :=
  {| StudentsApi.deleting := Students.table_repository;
     StudentsApi.repo_create := fun p =>
       {| Students.id := match StudentsApi.p_id p with Some i => i | None => "new" end;
          Students.name := match StudentsApi.p_name p with Some n => n | None => EmptyString end;
          Students.age := match StudentsApi.p_age p with Some a => a | None => 0 end;
          Students.grade := match StudentsApi.p_grade p with Some g => g | None => 0 end;
          Students.isActive := match StudentsApi.p_isActive p with Some b => b | None => true end;
          Students.createdAt := match StudentsApi.p_createdAt p with Some t => t | None => 0 end |};
     StudentsApi.repo_save := fun m t => (Normal m, <[Students.id m := m]> t);
     StudentsApi.repo_find := fun _ t => (Normal (List.map snd (map_to_list t)), t);
     StudentsApi.repo_findOneBy := fun p t =>
       (Normal (match StudentsApi.p_id p with Some i => t !! i | None => None end), t);
     StudentsApi.repo_merge := fun m p =>
       {| Students.id := Students.id m;
          Students.name := match StudentsApi.p_name p with Some n => n | None => Students.name m end;
          Students.age := match StudentsApi.p_age p with Some a => a | None => Students.age m end;
          Students.grade := match StudentsApi.p_grade p with Some g => g | None => Students.grade m end;
          Students.isActive := match StudentsApi.p_isActive p with Some b => b | None => Students.isActive m end;
          Students.createdAt := Students.createdAt m |};
     StudentsApi.repo_count := fun t => (Normal (Z.of_nat (size t)), t);
     StudentsApi.repo_findWithGradeGreaterOrEqual := fun g t =>
       (Normal (List.filter (fun m => g <=? Students.grade m)
                            (List.map snd (map_to_list t))), t) |}.

Definition epoch_text (t : Z) : string := "1970-01-01T00:00:00.000Z".

Definition no_changes : StudentsApi.UpdateStudentDto :=
  {| StudentsApi.p_id := None; StudentsApi.p_name := None;
     StudentsApi.p_age := Some 21; StudentsApi.p_grade := None;
     StudentsApi.p_isActive := None; StudentsApi.p_createdAt := None |}.

(** A Prisma known-request error with code P2025 (record not found). *)
Definition record_to_delete_missing : Exception :=
  ErrorInstance
    {| err_message := "An operation failed because it depends on one or more records that were required but not found.";
       err_stack := Some "PrismaClientKnownRequestError: An operation failed";
       err_props := [ ("code", JStr "P2025");
                      ("meta", JObj [ ("modelName", JStr "Student") ]) ] |}.

(** A repository whose [delete] rejects, as a Prisma-backed one does for
    an identifier that is not stored. *)
Definition rejecting_repository : Students.IStudentRepository unit :=
  {| Students.repo_delete := fun _ db => (Throw record_to_delete_missing, db) |}.

(** The database [db] with its join table replaced by [pairs]. *)
Definition with_enrollments (db : Seeding.Database)
    (pairs : list (string * string)) : Seeding.Database :=
  {| Seeding.teachers := Seeding.teachers db;
     Seeding.courses := Seeding.courses db;
     Seeding.students := Seeding.students db;
     Seeding.courseToStudent := pairs |}.

(** [db'] holds every row of [db], in the same order, followed by new
    rows only. *)
Definition extends (db db' : Seeding.Database) : Prop :=
  (exists ts, Seeding.teachers db' = (Seeding.teachers db ++ ts)%list) /\
  (exists cs, Seeding.courses db' = (Seeding.courses db ++ cs)%list) /\
  (exists ss, Seeding.students db' = (Seeding.students db ++ ss)%list) /\
  (exists es, Seeding.courseToStudent db' = (Seeding.courseToStudent db ++ es)%list).

(** The join-table row of a planned enrollment. *)
Definition join_row (p : string * string) : string * string :=
  (snd p, fst p).

Definition empty_database : Seeding.Database :=
  {| Seeding.teachers := []; Seeding.courses := [];
     Seeding.students := []; Seeding.courseToStudent := [] |}.

(** The student row the seed service builds from a seed row. *)
Definition seeded_student (row : Seeding.SeedStudent) : Seeding.Student :=
  {| Seeding.s_id := Seeding.row_id row;
     Seeding.s_name := Seeding.row_name row;
     Seeding.s_age := Seeding.row_age row;
     Seeding.s_grade := Seeding.row_grade row;
     Seeding.s_isActive := match Seeding.row_isActive row with
                           | Some b => b
                           | None => true
                           end |}.

Definition sample_rows : list Seeding.SeedStudent :=
  List.map (fun i => {| Seeding.row_id := "3b1d8c6a-8c3a-4a3f-9b0c-7e3d2c5c8f1"
                                          ++ num_to_string (Z.of_nat i);
                        Seeding.row_name := "Student";
                        Seeding.row_age := 20;
                        Seeding.row_grade := 70;
                        Seeding.row_isActive := None |})
           (seq 0 8).

(** A database whose teachers and courses are seeded and whose students
    are not yet enrolled anywhere. *)
Definition sample_school : Seeding.Database :=
  {| Seeding.teachers := Seeding.teachersSeedData;
     Seeding.courses := Seeding.coursesSeedData;
     Seeding.students := List.map seeded_student sample_rows;
     Seeding.courseToStudent := [] |}.

(** A database with a teacher of its own and no course. *)
Definition foreign_school : Seeding.Database :=
  {| Seeding.teachers :=
       [ {| Seeding.t_id := "c3000000-0000-4000-8000-000000000009";
            Seeding.t_fullName := "Dr. Ada Byron";
            Seeding.t_email := "ada.byron@school.edu" |} ];
     Seeding.courses := [];
     Seeding.students := [];
     Seeding.courseToStudent := [] |}.

Definition url_environment : gmap string string :=
  <[ "DATABASE_URL" := "postgres://app@db:5432/students_db" ]>
    (<[ "DB_PORT" := "6543" ]> empty).

Definition blank_port_environment : gmap string string :=
  <[ "DB_PORT" := EmptyString ]> empty.

(** Some byte of [s] is a C0 control (code below 32: line feed, carriage
    return, tab, escape and the like).  In UTF-8 text such a byte is always
    a character of its own. *)
Fixpoint has_c0_control (s : string) : bool :=
  match s with
  | EmptyString => false
  | String c t => Nat.ltb (nat_of_ascii c) 32 || has_c0_control t
  end.

(** The no-break space U+00A0, as UTF-8 text. *)
Definition no_break_space : string :=
  String (ascii_of_nat 194) (String (ascii_of_nat 160) EmptyString).

Definition padded_port_environment : gmap string string :=
  <[ "DB_PORT" := no_break_space ++ "6543" ]> empty.

Definition newline : string := String (ascii_of_nat 10) EmptyString.

(** * Properties *)

(** ** Conversion to text *)

(** Induction on a value through the elements of its arrays. *)
Lemma JsVal_elements_ind (P : JsVal -> Prop) :
  (forall v, isArray v = false -> P v) ->
  (forall l, Forall P l -> P (JArr l)) ->
  forall v, P v.
Proof.
  intros Hother Harr. fix IH 1. intros v.
  destruct v as [ | | b | n | s | l | props];
    try (apply Hother; reflexivity).
  apply Harr. revert l. fix IHl 1. intros [|x l]; constructor;
    [apply IH|apply IHl].
Qed.

Lemma js_String_array (l : list JsVal) :
  js_String (JArr l) = array_join "," l.
Proof.
  unfold array_join. cbn [js_String].
  match goal with
  | |- bind ?each _ = _ => assert (Heach : each = mapM element_text l)
  end.
  { induction l as [|x l IH]; [reflexivity|].
    cbn [mapM]. rewrite <- IH. reflexivity. }
  rewrite Heach. reflexivity.
Qed.

Lemma mapM_element_text_result (l : list JsVal) :
  Forall (fun v => if stringifiable v
                   then exists s, js_String v = Normal s
                   else exists what, js_String v = Throw (TypeError what)) l ->
  if forallb (fun x => isNullish x || stringifiable x) l
  then exists parts, mapM element_text l = Normal parts
  else exists what, mapM element_text l = Throw (TypeError what).
Proof.
  induction 1 as [|x l Hx _ IH]; cbn [forallb mapM]; [eexists; reflexivity|].
  assert (Hex : element_text x
                = if isNullish x then Normal EmptyString else js_String x)
    by reflexivity.
  rewrite Hex; clear Hex.
  destruct (isNullish x) eqn:Hn; cbn [orb andb bind].
  - destruct (forallb _ l).
    + destruct IH as (parts & ->). eexists; reflexivity.
    + destruct IH as (what & ->). eexists; reflexivity.
  - destruct (stringifiable x); cbn [andb].
    + destruct Hx as (s & ->). cbn [bind].
      destruct (forallb _ l).
      * destruct IH as (parts & ->). eexists; reflexivity.
      * destruct IH as (what & ->). eexists; reflexivity.
    + destruct Hx as (what & ->). eexists; reflexivity.
Qed.

(** [String(v)] raises exactly when it meets an object with an own
    [toString] member. *)
Lemma js_String_result (v : JsVal) :
  if stringifiable v
  then exists s, js_String v = Normal s
  else exists what, js_String v = Throw (TypeError what).
Proof.
  induction v as [v Hv | l Hl] using JsVal_elements_ind.
  - destruct v as [ | | b | n | s | l | props]; try discriminate;
      cbn [stringifiable js_String]; try (eexists; reflexivity).
    destruct (assoc "toString" props); eexists; reflexivity.
  - rewrite js_String_array. unfold array_join. cbn [stringifiable].
    pose proof (mapM_element_text_result l Hl) as Hparts.
    destruct (forallb _ l).
    + destruct Hparts as (parts & ->). eexists; reflexivity.
    + destruct Hparts as (what & ->). eexists; reflexivity.
Qed.

Lemma array_join_result (sep : string) (l : list JsVal) :
  if forallb (fun x => isNullish x || stringifiable x) l
  then exists text, array_join sep l = Normal text
  else exists what, array_join sep l = Throw (TypeError what).
Proof.
  unfold array_join.
  assert (Hl : Forall (fun v => if stringifiable v
                                then exists s, js_String v = Normal s
                                else exists what, js_String v = Throw (TypeError what)) l).
  { apply List.Forall_forall. intros v _. apply js_String_result. }
  pose proof (mapM_element_text_result l Hl) as Hparts.
  destruct (forallb _ l).
  - destruct Hparts as (parts & ->). eexists; reflexivity.
  - destruct Hparts as (what & ->). eexists; reflexivity.
Qed.

(** Joining texts is the concatenation with the separator in between. *)
Lemma array_join_strings (sep : string) (names : list string) :
  array_join sep (List.map JStr names) = Normal (String.concat sep names).
Proof.
  unfold array_join.
  assert (Hparts : mapM element_text (List.map JStr names) = Normal (E := JsError) names).
  { induction names as [|n names IH]; [reflexivity|].
    cbn [List.map mapM]. rewrite IH. reflexivity. }
  rewrite Hparts. reflexivity.
Qed.

(** A number below 2^53 prints as its decimal digits; from 10^21 on the
    text is in exponent form, and between the two it has the digits of the
    shortest decimal that denotes the same double. *)
Lemma num_to_string_samples :
  num_to_string 404 = "404" /\
  num_to_string (-7) = "-7" /\
  num_to_string 9007199254740993 = "9007199254740992" /\
  num_to_string 1152921504606846976 = "1152921504606847000" /\
  num_to_string (10 ^ 21) = "1e+21" /\
  num_to_string (2 ^ 70) = "1.1805916207174113e+21" /\
  num_to_string (2 ^ 1024) = "Infinity".
Proof. repeat split; vm_compute; reflexivity. Qed.

(** ** The validation-detail formatter *)

Lemma violation_item_record (e : JsVal) :
  is_violation_record e = true ->
  exists it,
    violation_item e = Normal it /\
    nonempty_string (field it) = true /\
    messages it <> [] /\
    field it = js_get_opt e "property" /\
    (forall cs, js_get_opt e "constraints" = JObj cs -> messages it = List.map snd cs).
Proof.
  destruct e as [ | | b | n | s | l | props]; simpl; try discriminate.
  intros Hrec. apply andb_true_iff in Hrec as [Hp Hc].
  unfold violation_item; simpl.
  destruct (assoc "property" props) as [p|]; [|discriminate].
  destruct p as [ | | b | n | s | l | ps]; simpl in Hp; try discriminate.
  destruct (assoc "constraints" props) as [c|] eqn:Ec.
  - destruct c as [ | | b | n | t | l | cs]; try discriminate.
    + destruct (assoc "toString" props); [discriminate|].
      eexists; repeat split; simpl; try reflexivity; try assumption.
      * discriminate.
      * intros cs H; discriminate.
    + destruct cs as [|c0 cs]; [discriminate|].
      eexists; repeat split; simpl; try reflexivity; try assumption.
      * discriminate.
      * intros cs' H; injection H as <-. reflexivity.
  - destruct (assoc "toString" props); [discriminate|].
    eexists; repeat split; simpl; try reflexivity; try assumption.
    + discriminate.
    + intros cs H; discriminate.
Qed.

Lemma mapM_violation_records (arr : list JsVal) :
  forallb is_violation_record arr = true ->
  exists items,
    mapM violation_item arr = Normal items /\
    Forall2 (fun e it =>
               nonempty_string (field it) = true /\
               messages it <> [] /\
               field it = js_get_opt e "property" /\
               (forall cs, js_get_opt e "constraints" = JObj cs ->
                           messages it = List.map snd cs))
            arr items.
Proof.
  induction arr as [|e arr IH]; simpl; intros Hall.
  - exists []. split; [reflexivity|constructor].
  - apply andb_true_iff in Hall as [He Harr].
    destruct (violation_item_record e He) as (it & Hit & Hprops).
    destruct (IH Harr) as (items & Hitems & Hall2).
    exists (it :: items). rewrite Hit; simpl. rewrite Hitems; simpl.
    split; [reflexivity|]. constructor; assumption.
Qed.

Lemma record_is_not_string (e : JsVal) :
  is_violation_record e = true -> isString e = false.
Proof. destruct e; simpl; intros H; try discriminate; reflexivity. Qed.

Lemma validation_errors_records (arr : list JsVal) :
  arr <> [] ->
  forallb is_violation_record arr = true ->
  validation_errors arr = mapM violation_item arr.
Proof.
  intros Hne Hall. unfold validation_errors.
  destruct arr as [|e arr]; [contradiction|].
  simpl in Hall |- *. apply andb_true_iff in Hall as [He _].
  rewrite (record_is_not_string e He). reflexivity.
Qed.

(** A record with a constraints map is rendered from its [property] and
    the values of the map; its text is never asked for. *)
Lemma violation_item_constrained (e : JsVal) :
  carries_constraints e = true ->
  exists it cs,
    violation_item e = Normal it /\
    js_get_opt e "constraints" = JObj cs /\
    field it = nullish_or (js_get_opt e "property") (JStr "body") /\
    messages it = List.map snd cs.
Proof.
  destruct e as [ | | b | n | s | l | props]; simpl; try discriminate.
  intros Hrec. unfold violation_item; simpl.
  destruct (assoc "constraints" props) as [c|] eqn:Ec; [|discriminate].
  destruct c as [ | | b | n | t | l | cs]; try discriminate.
  eexists; exists cs. repeat split; reflexivity.
Qed.

Lemma mapM_violation_constrained (arr : list JsVal) :
  forallb carries_constraints arr = true ->
  exists items,
    mapM violation_item arr = Normal items /\
    Forall2 (fun e it =>
               field it = nullish_or (js_get_opt e "property") (JStr "body") /\
               exists cs, js_get_opt e "constraints" = JObj cs /\
                          messages it = List.map snd cs)
            arr items.
Proof.
  induction arr as [|e arr IH]; simpl; intros Hall.
  - exists []. split; [reflexivity|constructor].
  - apply andb_true_iff in Hall as [He Harr].
    destruct (violation_item_constrained e He) as (it & cs & Hit & Hc & Hf & Hm).
    destruct (IH Harr) as (items & Hitems & Hall2).
    exists (it :: items). rewrite Hit; simpl. rewrite Hitems; simpl.
    split; [reflexivity|]. constructor; [|assumption].
    split; [exact Hf|]. exists cs. split; assumption.
Qed.

Lemma formatValidationDetails_array (arr : list JsVal) (raw : JsVal) :
  arr <> [] ->
  formatValidationDetails (JArr arr) raw =
    let! errs := validation_errors arr in Normal (Some {| errors := errs |}).
Proof. destruct arr; [contradiction|reflexivity]. Qed.

(** C8 (as stated, refuted): two violation records that name the same
    field give two entries, although there is only one distinct field: the
    formatter maps records to entries one for one and never groups them. *)
Lemma formatter_keeps_repeated_fields :
  forallb is_violation_record repeated_age_payload = true /\
  exists items,
    formatValidationDetails (JArr repeated_age_payload)
                            (JObj [ ("message", JArr repeated_age_payload) ])
      = Normal (Some {| errors := items |}) /\
    length items = 2%nat /\
    length (distinct_fields repeated_age_payload) = 1%nat /\
    length items <> length (distinct_fields repeated_age_payload).
Proof.
  split; [reflexivity|].
  eexists. split; [reflexivity|].
  split; [reflexivity|]. split; [reflexivity|]. discriminate.
Qed.

(** C8 (amended): for a non-empty payload the formatter unifies both
    shapes into entries [{field, messages}]: a sequence of plain strings
    gives exactly one entry, under the sentinel field ["body"], holding all
    the strings; a sequence of violation records that carry a
    [constraints] map gives one entry per record, in payload order, whose
    field is the record's [property] (the sentinel ["body"] when the record
    has none) and whose messages are the values of the record's
    [constraints]. *)
Theorem formatter_unifies_payload_shapes (msgs : list JsVal) (raw : JsVal) :
  msgs <> [] ->
  forallb isString msgs || forallb carries_constraints msgs = true ->
  exists items,
    formatValidationDetails (JArr msgs) raw = Normal (Some {| errors := items |}) /\
    if forallb isString msgs
    then items = [ {| field := JStr "body"; messages := msgs |} ]
    else length items = length msgs /\
         Forall2 (fun e it =>
                    field it = nullish_or (js_get_opt e "property") (JStr "body") /\
                    exists cs, js_get_opt e "constraints" = JObj cs /\
                               messages it = List.map snd cs)
                 msgs items.
Proof.
  intros Hne Hshape.
  rewrite formatValidationDetails_array by assumption.
  destruct (forallb isString msgs) eqn:Hstr.
  - exists [ {| field := JStr "body"; messages := msgs |} ].
    unfold validation_errors. rewrite Hstr. split; reflexivity.
  - simpl in Hshape.
    unfold validation_errors. rewrite Hstr.
    destruct (mapM_violation_constrained msgs Hshape) as (items & Hmap & Hall).
    exists items. rewrite Hmap. split; [reflexivity|]. split.
    + symmetry. exact (Forall2_length _ _ _ Hall).
    + exact Hall.
Qed.

Lemma formatter_unifies_payload_shapes_witness :
  [ age_violation "min" "age must be >= 6" ] <> [] /\
  forallb isString [ age_violation "min" "age must be >= 6" ]
    || forallb carries_constraints [ age_violation "min" "age must be >= 6" ] = true /\
  exists items,
    formatValidationDetails (JArr [ age_violation "min" "age must be >= 6" ]) JNull
      = Normal (Some {| errors := items |}) /\
    if forallb isString [ age_violation "min" "age must be >= 6" ]
    then items = [ {| field := JStr "body";
                      messages := [ age_violation "min" "age must be >= 6" ] |} ]
    else length items = length [ age_violation "min" "age must be >= 6" ] /\
         Forall2 (fun e it =>
                    field it = nullish_or (js_get_opt e "property") (JStr "body") /\
                    exists cs, js_get_opt e "constraints" = JObj cs /\
                               messages it = List.map snd cs)
                 [ age_violation "min" "age must be >= 6" ] items.
Proof.
  split; [discriminate|]. split; [reflexivity|].
  apply (formatter_unifies_payload_shapes
           [ age_violation "min" "age must be >= 6" ] JNull);
    [discriminate|reflexivity].
Defined.

(** ** Rendering of an [HttpException] *)

Lemma normalizeHttpException_validation
    (status : Z) (props : list (string * JsVal)) (arr : list JsVal)
    (items : list ValidationErrorItem) (err : ErrorFields) (tid : option string) :
  assoc "message" props = Some (JArr arr) ->
  arr <> [] ->
  validation_errors arr = Normal items ->
  normalizeHttpException status (JObj props) err tid =
    Normal {| statusCode := status;
              message := JStr "Validation failed";
              error := nullish_or (js_get_opt (JObj props) "error")
                                  (JStr (getStatusText status));
              traceId := tid;
              details := Some {| errors := items |} |}.
Proof.
  intros Hmsg Hne Herrs.
  unfold normalizeHttpException; cbn -[formatValidationDetails].
  rewrite Hmsg; cbn -[formatValidationDetails].
  rewrite formatValidationDetails_array by assumption.
  rewrite Herrs; simpl. reflexivity.
Qed.

Lemma validation_payload_inv (raw : JsVal) :
  is_validation_payload raw = true ->
  exists props arr,
    raw = JObj props /\
    assoc "message" props = Some (JArr arr) /\
    arr <> [] /\
    (forallb isString arr = true \/ forallb is_violation_record arr = true).
Proof.
  unfold is_validation_payload, message_array.
  destruct raw as [ | | b | n | s | l | props]; try discriminate.
  destruct (assoc "message" props) as [m|] eqn:Hmsg; [|discriminate].
  destruct m as [ | | b | n | s | arr | ps]; try discriminate.
  destruct arr as [|x arr]; [discriminate|].
  intros H. apply orb_true_iff in H.
  exists props, (x :: arr).
  split; [reflexivity|]. split; [exact Hmsg|]. split; [discriminate|exact H].
Qed.

(** C1 (as stated, refuted): a failure raised with status 422 whose payload
    is a sequence of plain strings is rendered with statusCode 422: the
    filter copies the status the failure carries and never forces 400. *)
Lemma validation_status_not_forced_to_400 :
  is_validation_payload unprocessable_payload = true /\
  exists body,
    buildErrorResponse {| NODE_ENV := Some "production" |}
      (HttpException 422 unprocessable_payload
                     (plain_error "Unprocessable Entity Exception")) None
      = Normal body /\
    message body = JStr "Validation failed" /\
    statusCode body = 422 /\
    statusCode body <> 400.
Proof.
  split; [reflexivity|].
  eexists. split; [reflexivity|].
  split; [reflexivity|]. split; [reflexivity|]. discriminate.
Qed.

(** C1 (amended): for every caught failure whose payload is a validation
    payload (a non-empty sequence of plain strings, or of per-field
    violation records, each an object with a non-empty [property] text
    and either a non-empty [constraints] map or no constraints and no
    [toString] member of its own), the envelope has the statusCode the
    failure itself carries (400 for the failures of the input-binding
    layer), the single message ["Validation failed"], and [details.errors]
    a non-empty sequence in which every entry has a non-empty field and a
    non-empty messages sequence. *)
Theorem validation_failure_envelope
    (env : ProcessEnv) (status : Z) (raw : JsVal) (err : ErrorFields)
    (tid : option string) :
  is_validation_payload raw = true ->
  exists body d,
    buildErrorResponse env (HttpException status raw err) tid = Normal body /\
    statusCode body = status /\
    message body = JStr "Validation failed" /\
    details body = Some d /\
    errors d <> [] /\
    Forall (fun it => nonempty_string (field it) = true /\ messages it <> [])
           (errors d).
Proof.
  intros Hshape.
  destruct (validation_payload_inv raw Hshape)
    as (props & arr & -> & Hmsg & Hne & [Hstr | Hrec]).
  - eexists; eexists. simpl.
    rewrite (normalizeHttpException_validation status props arr
               [ {| field := JStr "body"; messages := arr |} ] err tid Hmsg Hne).
    + repeat split; simpl; try reflexivity; try discriminate.
      constructor; [|constructor]. split; [reflexivity|exact Hne].
    + unfold validation_errors. rewrite Hstr. reflexivity.
  - destruct (mapM_violation_records arr Hrec) as (items & Hmap & Hall).
    eexists; eexists. simpl.
    rewrite (normalizeHttpException_validation status props arr items err tid Hmsg Hne).
    + repeat split; simpl; try reflexivity.
      * intros ->. inversion Hall; subst. contradiction.
      * clear - Hall. induction Hall as [|e it l k (Hf & Hm & _) _ IH];
          constructor; [split; assumption|assumption].
    + rewrite validation_errors_records by assumption. exact Hmap.
Qed.

Lemma validation_failure_envelope_witness :
  is_validation_payload
    (JObj [ ("message", JArr [ age_violation "min" "age must be >= 6" ]) ]) = true /\
  exists body d,
    buildErrorResponse {| NODE_ENV := None |}
      (HttpException 400
         (JObj [ ("message", JArr [ age_violation "min" "age must be >= 6" ]) ])
         (plain_error "Bad Request Exception")) (Some "trace-1")
      = Normal body /\
    statusCode body = 400 /\
    message body = JStr "Validation failed" /\
    details body = Some d /\
    errors d <> [] /\
    Forall (fun it => nonempty_string (field it) = true /\ messages it <> [])
           (errors d).
Proof.
  split; [reflexivity|].
  apply (validation_failure_envelope {| NODE_ENV := None |} 400
           (JObj [ ("message", JArr [ age_violation "min" "age must be >= 6" ]) ])
           (plain_error "Bad Request Exception") (Some "trace-1")).
  reflexivity.
Defined.

(** Why a violation record is asked for a name and for constraints that
    are not empty: the formatter copies what the record holds, so a record
    with an empty [property] and an empty [constraints] map gives an entry
    whose field and messages are empty; and a record without constraints
    whose own [toString] member hides the inherited method gives no entry
    at all, the conversion to text raises. *)
Lemma record_conditions_are_needed :
  buildErrorResponse production
    (HttpException 400
       (JObj [ ("message", JArr [ JObj [ ("property", JStr EmptyString);
                                         ("constraints", JObj []) ] ]) ])
       (plain_error "Bad Request Exception")) None
    = Normal {| statusCode := 400;
                message := JStr "Validation failed";
                error := JStr "Bad Request";
                traceId := None;
                details :=
                  Some {| errors := [ {| field := JStr EmptyString;
                                         messages := [] |} ] |} |} /\
  buildErrorResponse production
    (HttpException 400 (JObj [ ("message", JArr [ unconvertible_entry ]) ])
                   (plain_error "Bad Request Exception")) None
    = Throw (TypeError "Cannot convert object to primitive value").
Proof. split; reflexivity. Qed.

(** The [map] callback of the formatter renders an entry that is neither
    [null] nor [undefined] and has truthy constraints or a text, and raises
    on any other. *)
Lemma violation_item_result (e : JsVal) :
  if entry_renders e
  then exists it, violation_item e = Normal it
  else exists what, violation_item e = Throw (TypeError what).
Proof.
  pose proof (js_String_result e) as Htext.
  unfold violation_item, entry_renders.
  destruct e as [ | | b | n | s | l | props];
    cbn -[js_String stringifiable]; try (eexists; reflexivity).
  - destruct (stringifiable (JArr l)).
    + destruct Htext as (s & ->). eexists; reflexivity.
    + destruct Htext as (what & ->). eexists; reflexivity.
  - destruct (truthy (match assoc "constraints" props with
                      | Some x => x
                      | None => JUndefined
                      end)) eqn:Ht; cbn -[js_String stringifiable].
    + destruct (match assoc "constraints" props with
                | Some x => x
                | None => JUndefined
                end) as [ | | b | n | s | l | cs];
        try discriminate; eexists; reflexivity.
    + destruct (stringifiable (JObj props)).
      * destruct Htext as (s & ->). eexists; reflexivity.
      * destruct Htext as (what & ->). eexists; reflexivity.
Qed.

Lemma mapM_violation_result (arr : list JsVal) :
  if forallb entry_renders arr
  then exists items, mapM violation_item arr = Normal items
  else exists what, mapM violation_item arr = Throw (TypeError what).
Proof.
  induction arr as [|e arr IH]; cbn [forallb mapM]; [eexists; reflexivity|].
  pose proof (violation_item_result e) as He.
  destruct (entry_renders e); cbn [andb].
  - destruct He as (it & ->). cbn [bind].
    destruct (forallb entry_renders arr).
    + destruct IH as (items & ->). eexists; reflexivity.
    + destruct IH as (what & ->). eexists; reflexivity.
  - destruct He as (what & ->). eexists; reflexivity.
Qed.

Lemma validation_errors_result (arr : list JsVal) :
  if forallb isString arr || forallb entry_renders arr
  then exists items, validation_errors arr = Normal items
  else exists what, validation_errors arr = Throw (TypeError what).
Proof.
  unfold validation_errors.
  destruct (forallb isString arr); cbn [orb]; [eexists; reflexivity|].
  apply mapM_violation_result.
Qed.

Ltac rendered := eexists; reflexivity.

(** An [HttpException] is rendered exactly when its payload's message
    sequence is made of strings only or of entries the formatter can
    render. *)
Lemma normalizeHttpException_renders
    (status : Z) (raw : JsVal) (err : ErrorFields) (tid : option string) :
  payload_renders raw = true ->
  exists body, normalizeHttpException status raw err tid = Normal body.
Proof.
  unfold payload_renders, message_array, normalizeHttpException.
  destruct raw as [ | | b | n | s | l | props];
    cbn -[formatValidationDetails]; intros Hall;
    try rendered.
  destruct (assoc "message" props) as [m|] eqn:Hm;
    [|simpl; rewrite Hm; rendered].
  destruct m as [ | | b | n | s | arr | ps];
    try (simpl; rewrite Hm; rendered).
  destruct arr as [|x arr]; [simpl; rewrite Hm; rendered|].
  rewrite formatValidationDetails_array by discriminate.
  pose proof (validation_errors_result (x :: arr)) as Herrs.
  rewrite Hall in Herrs. destruct Herrs as (items & ->).
  rendered.
Qed.

Lemma normalizeHttpException_raises
    (status : Z) (raw : JsVal) (err : ErrorFields) (tid : option string) :
  payload_renders raw = false ->
  exists what, normalizeHttpException status raw err tid = Throw (TypeError what).
Proof.
  unfold payload_renders, message_array, normalizeHttpException.
  destruct raw as [ | | b | n | s | l | props];
    cbn -[formatValidationDetails]; intros Hall; try discriminate.
  destruct (assoc "message" props) as [m|] eqn:Hm; [|discriminate].
  destruct m as [ | | b | n | s | arr | ps]; try discriminate.
  destruct arr as [|x arr]; [discriminate|].
  rewrite formatValidationDetails_array by discriminate.
  pose proof (validation_errors_result (x :: arr)) as Herrs.
  rewrite Hall in Herrs. destruct Herrs as (what & ->).
  eexists; reflexivity.
Qed.

(** Whatever the payload, a rendered [HttpException] keeps the status it
    carries and gets the trace identifier handed in. *)
Lemma normalizeHttpException_status
    (status : Z) (raw : JsVal) (err : ErrorFields) (tid : option string)
    (body : ErrorResponseDto) :
  normalizeHttpException status raw err tid = Normal body ->
  statusCode body = status /\ traceId body = tid.
Proof.
  unfold normalizeHttpException.
  destruct (typeofObject raw && negb (isNull raw) && negb (isArray raw)).
  - destruct (js_get raw "message") as [msg|x]; cbn [bind]; [|discriminate].
    destruct (formatValidationDetails msg raw) as [dets|x]; cbn [bind];
      [|discriminate].
    destruct (js_get raw "error") as [label|x]; cbn [bind]; [|discriminate].
    intros [= <-]. split; reflexivity.
  - intros [= <-]. split; reflexivity.
Qed.

(** What [catch] does once the body is built. *)
Lemma catch_after_build
    (env : ProcessEnv) (e : Exception) (w : World) (body : ErrorResponseDto) :
  buildErrorResponse env e (getTraceId (traceStore w)) = Normal body ->
  fst (catch_ env e w) = Normal tt /\
  traceStore (snd (catch_ env e w)) = traceStore w /\
  sent (snd (catch_ env e w)) =
    (sent w ++ [ {| sentStatus := statusCode body; sentBody := body |} ])%list.
Proof.
  intros Hb. unfold catch_. rewrite Hb.
  destruct (instanceofHttpException e); [|destruct (statusCode body >=? 500)];
    repeat split; reflexivity.
Qed.

(** C3 (as stated, refuted): a conflict failure (status 409) whose payload
    passes the validation-shape test is answered with 409, not 400. *)
Lemma validation_shape_does_not_reroute :
  is_validation_payload duplicate_registration = true /\
  exists body,
    sent (snd (catch_ {| NODE_ENV := Some "production" |}
                 (HttpException 409 duplicate_registration
                                (plain_error "Conflict Exception"))
                 empty_world))
      = [ {| sentStatus := 409; sentBody := body |} ] /\
    statusCode body = 409 /\
    sentStatus {| sentStatus := 409; sentBody := body |} <> 400.
Proof.
  split; [reflexivity|].
  eexists. split; [reflexivity|]. split; [reflexivity|]. discriminate.
Qed.

(** C3 (amended): for every failure that carries an explicit intended HTTP
    status S and that the filter renders (it renders every such failure
    but those on whose payload its own code raises, the subject of C6),
    exactly one response is written, and its HTTP status and the
    envelope's statusCode equal S exactly, also when the payload passes the
    validation-shape test: nothing reroutes the failure to 400. *)
Theorem explicit_status_is_preserved
    (env : ProcessEnv) (status : Z) (raw : JsVal) (err : ErrorFields)
    (w : World) (body : ErrorResponseDto) :
  buildErrorResponse env (HttpException status raw err)
                     (getTraceId (traceStore w)) = Normal body ->
  statusCode body = status /\
  fst (catch_ env (HttpException status raw err) w) = Normal tt /\
  sent (snd (catch_ env (HttpException status raw err) w)) =
    (sent w ++ [ {| sentStatus := status; sentBody := body |} ])%list.
Proof.
  intros Hb.
  destruct (normalizeHttpException_status status raw err _ body Hb) as [Hs _].
  destruct (catch_after_build env (HttpException status raw err) w body Hb)
    as (Hfst & _ & Hsent).
  split; [exact Hs|]. split; [exact Hfst|]. rewrite Hsent, Hs. reflexivity.
Qed.

Lemma explicit_status_is_preserved_witness :
  buildErrorResponse production
    (HttpException 409 duplicate_registration (plain_error "Conflict Exception"))
    (getTraceId (traceStore empty_world))
    = Normal {| statusCode := 409;
                message := JStr "Validation failed";
                error := JStr "Conflict";
                traceId := None;
                details :=
                  Some {| errors :=
                            [ {| field := JStr "body";
                                 messages := [ JStr "email already registered";
                                               JStr "name already registered" ] |} ] |} |} /\
  statusCode {| statusCode := 409;
                message := JStr "Validation failed";
                error := JStr "Conflict";
                traceId := None;
                details :=
                  Some {| errors :=
                            [ {| field := JStr "body";
                                 messages := [ JStr "email already registered";
                                               JStr "name already registered" ] |} ] |} |}
    = 409 /\
  fst (catch_ production
         (HttpException 409 duplicate_registration (plain_error "Conflict Exception"))
         empty_world) = Normal tt /\
  sent (snd (catch_ production
               (HttpException 409 duplicate_registration
                              (plain_error "Conflict Exception"))
               empty_world)) =
    (sent empty_world ++
     [ {| sentStatus := 409;
          sentBody :=
            {| statusCode := 409;
               message := JStr "Validation failed";
               error := JStr "Conflict";
               traceId := None;
               details :=
                 Some {| errors :=
                           [ {| field := JStr "body";
                                messages := [ JStr "email already registered";
                                              JStr "name already registered" ] |} ] |} |} |} ])%list.
Proof.
  split; [reflexivity|].
  apply (explicit_status_is_preserved production 409 duplicate_registration
           (plain_error "Conflict Exception") empty_world).
  reflexivity.
Defined.

(** ** Logging *)




(** ** Unknown failures *)

Lemma unknown_failure_build
    (env : ProcessEnv) (e : Exception) (tid : option string) :
  instanceofHttpException e = false ->
  tryMapPrismaError e tid = Normal None ->
  buildErrorResponse env e tid = Normal (normalizeUnknownError env e tid).
Proof.
  intros Hhttp Hmap. destruct e as [status raw err | err | v];
    [discriminate| |]; unfold buildErrorResponse; rewrite Hmap; reflexivity.
Qed.

(** C5: in production mode every failure that reaches the unknown-failure
    rendering (not an [HttpException], no mapped vendor code) gets the
    fixed envelope: statusCode 500, error ["Internal Server Error"] and the
    message ["Internal server error"], whatever the failure's own message;
    the failure's own message and stack go to the log sink only, in one
    entry at error level (["Unknown error"] without a stack when the caught
    value is not an [Error]). *)
Theorem production_unknown_failure_is_opaque
    (env : ProcessEnv) (e : Exception) (w : World) :
  isProduction env = true ->
  instanceofHttpException e = false ->
  tryMapPrismaError e (getTraceId (traceStore w)) = Normal None ->
  buildErrorResponse env e (getTraceId (traceStore w))
    = Normal {| statusCode := 500;
                message := JStr "Internal server error";
                error := JStr "Internal Server Error";
                traceId := getTraceId (traceStore w);
                details := None |} /\
  match e with
  | HttpException _ _ _ => True
  | ErrorInstance err =>
      catch_ env e w =
        (Normal tt,
         {| traceStore := traceStore w;
            logSink := logSink w ++
                       [ {| level := LevelError;
                            line := formatLine (traceStore w) (err_message err);
                            trace := err_stack err |} ];
            sent := sent w ++
                    [ {| sentStatus := 500;
                         sentBody :=
                           {| statusCode := 500;
                              message := JStr "Internal server error";
                              error := JStr "Internal Server Error";
                              traceId := getTraceId (traceStore w);
                              details := None |} |} ] |})
  | ThrownValue _ =>
      catch_ env e w =
        (Normal tt,
         {| traceStore := traceStore w;
            logSink := logSink w ++
                       [ {| level := LevelError;
                            line := formatLine (traceStore w) "Unknown error";
                            trace := None |} ];
            sent := sent w ++
                    [ {| sentStatus := 500;
                         sentBody :=
                           {| statusCode := 500;
                              message := JStr "Internal server error";
                              error := JStr "Internal Server Error";
                              traceId := getTraceId (traceStore w);
                              details := None |} |} ] |})
  end.
Proof.
  intros Hprod Hhttp Hmap.
  assert (Hb : buildErrorResponse env e (getTraceId (traceStore w))
               = Normal {| statusCode := 500;
                           message := JStr "Internal server error";
                           error := JStr "Internal Server Error";
                           traceId := getTraceId (traceStore w);
                           details := None |}).
  { rewrite (unknown_failure_build env e _ Hhttp Hmap).
    unfold normalizeUnknownError. rewrite Hprod. reflexivity. }
  split; [exact Hb|].
  destruct e as [status raw err | err | v]; [exact I| |];
    unfold catch_; rewrite Hb; reflexivity.
Qed.

Lemma production_unknown_failure_is_opaque_witness :
  isProduction production = true /\
  instanceofHttpException connection_dropped = false /\
  tryMapPrismaError connection_dropped
    (getTraceId (traceStore (in_request "9c41"))) = Normal None /\
  buildErrorResponse production connection_dropped
    (getTraceId (traceStore (in_request "9c41")))
    = Normal {| statusCode := 500;
                message := JStr "Internal server error";
                error := JStr "Internal Server Error";
                traceId := getTraceId (traceStore (in_request "9c41"));
                details := None |} /\
  catch_ production connection_dropped (in_request "9c41") =
    (Normal tt,
     {| traceStore := traceStore (in_request "9c41");
        logSink := logSink (in_request "9c41") ++
                   [ {| level := LevelError;
                        line := formatLine (traceStore (in_request "9c41"))
                                  "Can't reach database server at db:5432";
                        trace := Some "PrismaClientInitializationError: Can't reach database server" |} ];
        sent := sent (in_request "9c41") ++
                [ {| sentStatus := 500;
                     sentBody :=
                       {| statusCode := 500;
                          message := JStr "Internal server error";
                          error := JStr "Internal Server Error";
                          traceId := getTraceId (traceStore (in_request "9c41"));
                          details := None |} |} ] |}).
Proof.
  split; [reflexivity|]. split; [reflexivity|]. split; [reflexivity|].
  apply (production_unknown_failure_is_opaque production connection_dropped
           (in_request "9c41")); reflexivity.
Defined.

(** C10: a caught value that is not an [Error] instance and reaches the
    unknown-failure rendering gets the message ["Internal server error"]
    (with statusCode 500) in every mode, production or not: the value's
    own content is never copied into the envelope. *)
Theorem thrown_value_message_is_fixed
    (env : ProcessEnv) (v : JsVal) (tid : option string) :
  tryMapPrismaError (ThrownValue v) tid = Normal None ->
  buildErrorResponse env (ThrownValue v) tid = Normal (opaque_envelope tid).
Proof.
  intros Hmap.
  rewrite (unknown_failure_build env (ThrownValue v) tid eq_refl Hmap).
  unfold normalizeUnknownError, opaque_envelope; simpl.
  destruct (isProduction env); reflexivity.
Qed.

Lemma thrown_value_message_is_fixed_witness :
  tryMapPrismaError (ThrownValue (JStr "secret connection string")) None
    = Normal None /\
  buildErrorResponse development (ThrownValue (JStr "secret connection string")) None
    = Normal (opaque_envelope None).
Proof.
  split; [reflexivity|].
  apply (thrown_value_message_is_fixed development
           (JStr "secret connection string") None).
  reflexivity.
Defined.

(** ** The trace identifier *)

Lemma dto_traceId_on_wire (body : ErrorResponseDto) :
  assoc "traceId" (serialised_props (dto_object body)) =
    match traceId body with
    | Some id => Some (JStr id)
    | None => None
    end.
Proof.
  unfold dto_object, serialised_props; simpl.
  destruct (JSON_stringify (message body)), (JSON_stringify (error body));
    simpl; destruct (traceId body) as [id|]; simpl; try reflexivity;
    destruct (details body); reflexivity.
Qed.

Lemma buildErrorResponse_traceId
    (env : ProcessEnv) (e : Exception) (tid : option string)
    (body : ErrorResponseDto) :
  buildErrorResponse env e tid = Normal body -> traceId body = tid.
Proof.
  destruct e as [status raw err | err | v]; simpl.
  - intros Hb. apply (normalizeHttpException_status status raw err tid body Hb).
  - unfold tryMapPrismaError.
    destruct (strictEqStr _ PRISMA_UNIQUE_VIOLATION).
    + destruct (joined_target _); simpl; [|discriminate]. intros [= <-]. reflexivity.
    + destruct (strictEqStr _ PRISMA_RECORD_NOT_FOUND); simpl;
        intros [= <-]; reflexivity.
  - unfold tryMapPrismaError.
    destruct (strictEqStr _ PRISMA_UNIQUE_VIOLATION).
    + destruct (joined_target _); simpl; [|discriminate]. intros [= <-]. reflexivity.
    + destruct (strictEqStr _ PRISMA_RECORD_NOT_FOUND); simpl;
        intros [= <-]; reflexivity.
Qed.

(** C7: the envelope of every rendered failure carries the correlation
    identifier of the current request scope whenever the trace context
    yields one, and has no [traceId] member at all on the wire (absent, not
    [null]) when no scope is active; the filter reads the identifier and
    leaves the trace store as it found it. *)
Theorem envelope_carries_current_trace_id
    (env : ProcessEnv) (e : Exception) (w : World) (body : ErrorResponseDto) :
  buildErrorResponse env e (getTraceId (traceStore w)) = Normal body ->
  traceId body = getTraceId (traceStore w) /\
  (forall id, getTraceId (traceStore w) = Some id ->
              assoc "traceId" (serialised_props (dto_object body)) = Some (JStr id)) /\
  (getTraceId (traceStore w) = None ->
   assoc "traceId" (serialised_props (dto_object body)) = None) /\
  traceStore (snd (catch_ env e w)) = traceStore w /\
  sent (snd (catch_ env e w)) =
    (sent w ++ [ {| sentStatus := statusCode body; sentBody := body |} ])%list.
Proof.
  intros Hb.
  pose proof (buildErrorResponse_traceId env e _ body Hb) as Ht.
  destruct (catch_after_build env e w body Hb) as (_ & Hstore & Hsent).
  split; [exact Ht|].
  split; [intros id Hid; rewrite dto_traceId_on_wire, Ht, Hid; reflexivity|].
  split; [intros Hnone; rewrite dto_traceId_on_wire, Ht, Hnone; reflexivity|].
  split; assumption.
Qed.

Lemma envelope_carries_current_trace_id_witness :
  buildErrorResponse production
    (Students.NotFoundException "Student 42 not found")
    (getTraceId (traceStore (in_request "7b1e")))
    = Normal {| statusCode := 404;
                message := JStr "Student 42 not found";
                error := JStr "Not Found";
                traceId := Some "7b1e";
                details := None |} /\
  traceId {| statusCode := 404;
             message := JStr "Student 42 not found";
             error := JStr "Not Found";
             traceId := Some "7b1e";
             details := None |} = getTraceId (traceStore (in_request "7b1e")) /\
  (forall id, getTraceId (traceStore (in_request "7b1e")) = Some id ->
              assoc "traceId"
                (serialised_props
                   (dto_object {| statusCode := 404;
                                  message := JStr "Student 42 not found";
                                  error := JStr "Not Found";
                                  traceId := Some "7b1e";
                                  details := None |})) = Some (JStr id)) /\
  (getTraceId (traceStore (in_request "7b1e")) = None ->
   assoc "traceId"
     (serialised_props
        (dto_object {| statusCode := 404;
                       message := JStr "Student 42 not found";
                       error := JStr "Not Found";
                       traceId := Some "7b1e";
                       details := None |})) = None) /\
  traceStore (snd (catch_ production
                     (Students.NotFoundException "Student 42 not found")
                     (in_request "7b1e"))) = traceStore (in_request "7b1e") /\
  sent (snd (catch_ production
               (Students.NotFoundException "Student 42 not found")
               (in_request "7b1e"))) =
    (sent (in_request "7b1e") ++
     [ {| sentStatus := 404;
          sentBody := {| statusCode := 404;
                         message := JStr "Student 42 not found";
                         error := JStr "Not Found";
                         traceId := Some "7b1e";
                         details := None |} |} ])%list.
Proof.
  split; [reflexivity|].
  apply (envelope_carries_current_trace_id production
           (Students.NotFoundException "Student 42 not found")
           (in_request "7b1e")).
  reflexivity.
Defined.

(** ** Vendor codes *)

Lemma unique_violation_joined_target
    (e : Exception) (fields : list JsVal) (text : string) (tid : option string) :
  exn_prop e "code" = JStr "P2002" ->
  js_get_opt (exn_prop e "meta") "target" = JArr fields ->
  array_join ", " fields = Normal text ->
  tryMapPrismaError e tid =
    Normal (Some {| statusCode := 409;
                    message :=
                      (if String.eqb text EmptyString
                       then JStr "Resource already exists"
                       else JStr ("Duplicate value for field(s): " ++ text));
                    error := JStr "Conflict";
                    traceId := tid;
                    details := None |}).
Proof.
  intros Hcode Htarget Hjoin.
  unfold tryMapPrismaError, joined_target.
  rewrite Hcode, Htarget; cbn -[array_join]. rewrite Hjoin; cbn.
  destruct text; reflexivity.
Qed.

Lemma unique_violation_array_target
    (env : ProcessEnv) (err : ErrorFields) (fields : list JsVal)
    (text : string) (tid : option string) :
  exn_prop (ErrorInstance err) "code" = JStr "P2002" ->
  js_get_opt (exn_prop (ErrorInstance err) "meta") "target" = JArr fields ->
  array_join ", " fields = Normal text ->
  buildErrorResponse env (ErrorInstance err) tid =
    Normal {| statusCode := 409;
              message :=
                (if String.eqb text EmptyString
                 then JStr "Resource already exists"
                 else JStr ("Duplicate value for field(s): " ++ text));
              error := JStr "Conflict";
              traceId := tid;
              details := None |}.
Proof.
  intros Hcode Htarget Hjoin. unfold buildErrorResponse.
  rewrite (unique_violation_joined_target _ fields text tid Hcode Htarget Hjoin).
  reflexivity.
Qed.

Lemma unique_violation_no_target
    (env : ProcessEnv) (err : ErrorFields) (tid : option string) :
  exn_prop (ErrorInstance err) "code" = JStr "P2002" ->
  isNullish (js_get_opt (exn_prop (ErrorInstance err) "meta") "target") = true ->
  buildErrorResponse env (ErrorInstance err) tid =
    Normal {| statusCode := 409;
              message := JStr "Resource already exists";
              error := JStr "Conflict";
              traceId := tid;
              details := None |}.
Proof.
  intros Hcode Htarget.
  unfold buildErrorResponse, tryMapPrismaError, joined_target.
  rewrite Hcode, Htarget; reflexivity.
Qed.

Lemma record_not_found_mapping
    (env : ProcessEnv) (err : ErrorFields) (tid : option string) :
  exn_prop (ErrorInstance err) "code" = JStr "P2025" ->
  buildErrorResponse env (ErrorInstance err) tid =
    Normal {| statusCode := 404;
              message := JStr "Record not found";
              error := JStr "Not Found";
              traceId := tid;
              details := None |}.
Proof.
  intros Hcode.
  unfold buildErrorResponse, tryMapPrismaError. rewrite Hcode; reflexivity.
Qed.

Lemma other_vendor_code_is_unknown
    (env : ProcessEnv) (e : Exception) (tid : option string) :
  instanceofHttpException e = false ->
  strictEqStr (exn_prop e "code") "P2002" = false ->
  strictEqStr (exn_prop e "code") "P2025" = false ->
  exists body,
    buildErrorResponse env e tid = Normal body /\ statusCode body = 500.
Proof.
  intros Hhttp H1 H2.
  exists (normalizeUnknownError env e tid). split; [|reflexivity].
  apply unknown_failure_build; [assumption|].
  unfold tryMapPrismaError, PRISMA_UNIQUE_VIOLATION, PRISMA_RECORD_NOT_FOUND.
  rewrite H1, H2. reflexivity.
Qed.

(** C4 (the code departs from the claim): a unique-violation failure whose
    [meta.target] is a string (the name of the violated constraint) is not
    rendered as 409: the call of [join] on the string raises a [TypeError]
    inside the filter, and no response is written. *)
Theorem unique_violation_with_text_target_raises :
  exn_prop (unique_violation (JStr "Student_email_key")) "code" = JStr "P2002" /\
  tryMapPrismaError (unique_violation (JStr "Student_email_key")) None
    = Throw (TypeError "meta?.target?.join is not a function") /\
  buildErrorResponse production (unique_violation (JStr "Student_email_key")) None
    = Throw (TypeError "meta?.target?.join is not a function") /\
  catch_ production (unique_violation (JStr "Student_email_key")) empty_world
    = (Throw (TypeError "meta?.target?.join is not a function"), empty_world).
Proof. repeat split. Qed.

(** ** Totality *)

(** C6 (the code departs from the claim): for an [HttpException] whose
    message sequence holds [null], the filter produces no envelope: reading
    [property] of the entry raises a [TypeError], so nothing is logged and
    no response is written. *)
Theorem null_message_entry_is_not_rendered :
  buildErrorResponse production
    (HttpException 400 null_entry_payload (plain_error "Bad Request Exception"))
    (Some "51d0")
    = Throw (TypeError "Cannot read properties of null (reading 'property')") /\
  catch_ production
    (HttpException 400 null_entry_payload (plain_error "Bad Request Exception"))
    (in_request "51d0")
    = (Throw (TypeError "Cannot read properties of null (reading 'property')"),
       in_request "51d0").
Proof. split; reflexivity. Qed.

(** The three steps are tried in order, first match wins: an
    [HttpException] is rendered by its own step whatever vendor code it
    carries, then the vendor codes are looked up, and the unknown-failure
    rendering is the default. *)
Lemma buildErrorResponse_priority
    (env : ProcessEnv) (e : Exception) (tid : option string) :
  match e with
  | HttpException status raw err =>
      buildErrorResponse env e tid = normalizeHttpException status raw err tid
  | _ =>
      match tryMapPrismaError e tid with
      | Normal (Some r) => buildErrorResponse env e tid = Normal r
      | Normal None =>
          buildErrorResponse env e tid = Normal (normalizeUnknownError env e tid)
      | Throw x => buildErrorResponse env e tid = Throw x
      end
  end.
Proof.
  destruct e as [status raw err | err | v]; simpl; [reflexivity| |];
    destruct (tryMapPrismaError _ tid) as [[r|]|x]; reflexivity.
Qed.

(** ** Removing a student *)

Lemma remove_after_delete
    (R : Type) (repo : Students.IStudentRepository R) (key : string)
    (db db' : R) (result : Students.DeleteResult) :
  Students.repo_delete key db = (Normal result, db') ->
  (Students.affected result = JNum 0 ->
   Students.remove key db =
     (Throw (Students.NotFoundException ("Student " ++ key ++ " not found")), db'))
  /\
  (Students.affected result <> JNum 0 ->
   Students.remove key db = (Normal tt, db')).
Proof.
  intros Hdel. unfold Students.remove. rewrite Hdel. split.
  - intros ->. reflexivity.
  - intros Hnz. destruct (Students.affected result) as [ | | b | n | s | l | ps];
      simpl; try reflexivity.
    destruct (Z.eqb_spec n 0) as [-> | Hn]; [contradiction|reflexivity].
Qed.

Lemma remove_rejected_delete
    (R : Type) (repo : Students.IStudentRepository R) (key : string)
    (db db' : R) (failure : Exception) :
  Students.repo_delete key db = (Throw failure, db') ->
  Students.remove key db = (Throw failure, db').
Proof. intros Hdel. unfold Students.remove. rewrite Hdel. reflexivity. Qed.

Lemma remove_stored_student
    (t : gmap string Students.StudentModel) (key : string)
    (row : Students.StudentModel) :
  t !! key = Some row ->
  Students.remove key t = (Normal tt, delete key t).
Proof.
  intros Hrow. unfold Students.remove; simpl.
  unfold Students.table_delete. rewrite Hrow. reflexivity.
Qed.

(** Scenario B: the not-found failure of the service is rendered as 404
    with the service's message and the label ["Not Found"]. *)
Lemma not_found_rendering
    (env : ProcessEnv) (msg : string) (tid : option string) :
  buildErrorResponse env (Students.NotFoundException msg) tid =
    Normal {| statusCode := 404;
              message := JStr msg;
              error := JStr "Not Found";
              traceId := tid;
              details := None |}.
Proof. reflexivity. Qed.

(** C9: deleting a record that does not exist is not a repository failure:
    [delete] settles with an affected count of zero and leaves the table as
    it was, and [remove] then raises the not-found failure (status 404,
    message ["Student <id> not found"]).  Over any repository, [remove]
    raises that failure exactly when the count returned by [delete] is
    zero, and completes without failure otherwise. *)
Theorem remove_raises_not_found_iff_nothing_deleted
    (t : gmap string Students.StudentModel) (ident : string) :
  t !! ident = None ->
  Students.repo_delete ident t = (Normal {| Students.affected := JNum 0 |}, t) /\
  Students.remove ident t =
    (Throw (HttpException 404
              (JObj [ ("message", JStr ("Student " ++ ident ++ " not found"));
                      ("error", JStr "Not Found");
                      ("statusCode", JNum 404) ])
              {| err_message := "Student " ++ ident ++ " not found";
                 err_stack := None;
                 err_props := [] |}), t) /\
  (forall (R : Type) (repo : Students.IStudentRepository R) (key : string)
          (db db' : R) (result : Students.DeleteResult),
      Students.repo_delete key db = (Normal result, db') ->
      (Students.affected result = JNum 0 ->
       Students.remove key db =
         (Throw (Students.NotFoundException ("Student " ++ key ++ " not found")),
          db'))
      /\
      (Students.affected result <> JNum 0 ->
       Students.remove key db = (Normal tt, db'))).
Proof.
  intros Hnone.
  assert (Hdel : Students.repo_delete ident t
                 = (Normal {| Students.affected := JNum 0 |}, t)).
  { simpl. unfold Students.table_delete. rewrite Hnone. reflexivity. }
  split; [exact Hdel|]. split.
  - destruct (remove_after_delete _ _ ident t t _ Hdel) as [Hzero _].
    rewrite Hzero by reflexivity. reflexivity.
  - intros R repo key db db' result. apply remove_after_delete.
Qed.

Lemma remove_raises_not_found_iff_nothing_deleted_witness :
  no_students !! "42" = None /\
  Students.repo_delete "42" no_students
    = (Normal {| Students.affected := JNum 0 |}, no_students) /\
  Students.remove "42" no_students =
    (Throw (HttpException 404
              (JObj [ ("message", JStr ("Student " ++ "42" ++ " not found"));
                      ("error", JStr "Not Found");
                      ("statusCode", JNum 404) ])
              {| err_message := "Student " ++ "42" ++ " not found";
                 err_stack := None;
                 err_props := [] |}), no_students) /\
  (forall (R : Type) (repo : Students.IStudentRepository R) (key : string)
          (db db' : R) (result : Students.DeleteResult),
      Students.repo_delete key db = (Normal result, db') ->
      (Students.affected result = JNum 0 ->
       Students.remove key db =
         (Throw (Students.NotFoundException ("Student " ++ key ++ " not found")),
          db'))
      /\
      (Students.affected result <> JNum 0 ->
       Students.remove key db = (Normal tt, db'))).
Proof.
  split; [reflexivity|].
  apply (remove_raises_not_found_iff_nothing_deleted no_students "42").
  reflexivity.
Defined.

(** * Further properties of the filter *)

Lemma tryMapPrismaError_raises_iff (e : Exception) (tid : option string) :
  (strictEqStr (exn_prop e "code") PRISMA_UNIQUE_VIOLATION
   && negb (isNullish (js_get_opt (exn_prop e "meta") "target"))
   && negb (joinable (js_get_opt (exn_prop e "meta") "target")) = true ->
   exists what, tryMapPrismaError e tid = Throw (TypeError what))
  /\
  (strictEqStr (exn_prop e "code") PRISMA_UNIQUE_VIOLATION
   && negb (isNullish (js_get_opt (exn_prop e "meta") "target"))
   && negb (joinable (js_get_opt (exn_prop e "meta") "target")) = false ->
   exists r, tryMapPrismaError e tid = Normal r).
Proof.
  unfold tryMapPrismaError, joined_target, joinable.
  destruct (strictEqStr (exn_prop e "code") PRISMA_UNIQUE_VIOLATION); simpl.
  - destruct (js_get_opt (exn_prop e "meta") "target")
      as [ | | b | n | s | l | ps]; cbn -[array_join]; split; intros H;
      try discriminate; try (eexists; reflexivity).
    + pose proof (array_join_result ", " l) as Hjoin.
      destruct (forallb _ l); [discriminate|].
      destruct Hjoin as (what & ->). eexists; reflexivity.
    + pose proof (array_join_result ", " l) as Hjoin.
      destruct (forallb _ l); [|discriminate].
      destruct Hjoin as (text & ->). eexists; reflexivity.
  - split; [discriminate|]. intros _.
    destruct (strictEqStr (exn_prop e "code") PRISMA_RECORD_NOT_FOUND);
      eexists; reflexivity.
Qed.

(** X1: on caught values made of [null], [undefined], booleans, integers,
    strings, arrays and plain data objects, the filter's own code raises
    exactly on two kinds of failure.  One is an [HttpException] with an
    object payload whose [message] is a non-empty array, not made of
    strings only, that holds an entry the formatter cannot render: [null],
    [undefined], or an entry without truthy [constraints] that has no text
    (an object with an own [toString] member, or an array holding one).
    The other is a failure with the unique-violation code whose
    [meta.target] is present and cannot be joined: it is not an array, or
    it holds an element without text.  Every other caught value is
    rendered. *)
Theorem filter_raises_exactly_on_unchecked_shapes
    (env : ProcessEnv) (e : Exception) (tid : option string) :
  if raises_on e
  then exists what, buildErrorResponse env e tid = Throw (TypeError what)
  else exists body, buildErrorResponse env e tid = Normal body.
Proof.
  destruct e as [status raw err | err | v]; unfold raises_on.
  - destruct (payload_renders raw) eqn:Hok; simpl.
    + apply normalizeHttpException_renders. exact Hok.
    + apply normalizeHttpException_raises. exact Hok.
  - destruct (tryMapPrismaError_raises_iff (ErrorInstance err) tid) as [Hr Hn].
    destruct (_ && _ && _).
    + destruct (Hr eq_refl) as (what & Hw). exists what.
      unfold buildErrorResponse. rewrite Hw. reflexivity.
    + destruct (Hn eq_refl) as (r & Hw).
      unfold buildErrorResponse. rewrite Hw. simpl.
      destruct r; eexists; reflexivity.
  - destruct (tryMapPrismaError_raises_iff (ThrownValue v) tid) as [Hr Hn].
    destruct (_ && _ && _).
    + destruct (Hr eq_refl) as (what & Hw). exists what.
      unfold buildErrorResponse. rewrite Hw. reflexivity.
    + destruct (Hn eq_refl) as (r & Hw).
      unfold buildErrorResponse. rewrite Hw. simpl.
      destruct r; eexists; reflexivity.
Qed.

(** The raising shapes at work: an entry without constraints whose own
    [toString] member is not a function stops the formatter, and stops the
    vendor mapping when it sits in [meta.target]. *)
Lemma unconvertible_entry_raises :
  raises_on (HttpException 400 (JObj [ ("message", JArr [ unconvertible_entry ]) ])
                           (plain_error "Bad Request Exception")) = true /\
  buildErrorResponse production
    (HttpException 400 (JObj [ ("message", JArr [ unconvertible_entry ]) ])
                   (plain_error "Bad Request Exception")) None
    = Throw (TypeError "Cannot convert object to primitive value") /\
  raises_on (unique_violation (JArr [ unconvertible_entry ])) = true /\
  buildErrorResponse production (unique_violation (JArr [ unconvertible_entry ])) None
    = Throw (TypeError "Cannot convert object to primitive value").
Proof. repeat split. Qed.


(** X3: an [HttpException] whose payload is not a plain object is rendered
    without details: a string payload becomes the message itself, any other
    payload (an array, a number) gives way to the exception's own message;
    the label is the one of the status table. *)
Theorem non_object_payload_rendering
    (env : ProcessEnv) (status : Z) (raw : JsVal) (err : ErrorFields)
    (tid : option string) :
  isPlainObject raw = false ->
  buildErrorResponse env (HttpException status raw err) tid =
    Normal {| statusCode := status;
              message := JStr (match raw with
                               | JStr s => s
                               | _ => err_message err
                               end);
              error := JStr (getStatusText status);
              traceId := tid;
              details := None |}.
Proof.
  destruct raw as [ | | b | n | s | l | props]; simpl; intros H;
    try discriminate; reflexivity.
Qed.

Lemma non_object_payload_rendering_witness :
  isPlainObject (JArr [ JStr "email must be an email" ]) = false /\
  buildErrorResponse development
    (HttpException 400 (JArr [ JStr "email must be an email" ])
                   (plain_error "Http Exception")) None =
    Normal {| statusCode := 400;
              message := JStr "Http Exception";
              error := JStr (getStatusText 400);
              traceId := None;
              details := None |}.
Proof.
  split; [reflexivity|].
  apply (non_object_payload_rendering development 400
           (JArr [ JStr "email must be an email" ])
           (plain_error "Http Exception") None).
  reflexivity.
Defined.

Lemma getStatusText_default (status : Z) :
  getStatusText status = "Error" <->
  ~ In status [ 400; 401; 403; 404; 409; 500 ].
Proof.
  unfold getStatusText, STATUS_TEXT, BAD_REQUEST, UNAUTHORIZED, FORBIDDEN,
    NOT_FOUND, CONFLICT, INTERNAL_SERVER_ERROR; cbn [List.find fst snd].
  destruct (Z.eqb_spec 400 status) as [<-|H400];
    [split; [discriminate|intros H; exfalso; apply H; simpl; tauto]|].
  destruct (Z.eqb_spec 401 status) as [<-|H401];
    [split; [discriminate|intros H; exfalso; apply H; simpl; tauto]|].
  destruct (Z.eqb_spec 403 status) as [<-|H403];
    [split; [discriminate|intros H; exfalso; apply H; simpl; tauto]|].
  destruct (Z.eqb_spec 404 status) as [<-|H404];
    [split; [discriminate|intros H; exfalso; apply H; simpl; tauto]|].
  destruct (Z.eqb_spec 409 status) as [<-|H409];
    [split; [discriminate|intros H; exfalso; apply H; simpl; tauto]|].
  destruct (Z.eqb_spec 500 status) as [<-|H500];
    [split; [discriminate|intros H; exfalso; apply H; simpl; tauto]|].
  split; [|reflexivity]. intros _ Hin. simpl in Hin.
  destruct Hin as [H|[H|[H|[H|[H|[H|[]]]]]]]; congruence.
Qed.

(** X4: the envelope's [error] label of a rendered [HttpException] with an
    object payload is the payload's own [error] member when it has one that
    is neither [null] nor [undefined], and the label of the status table
    otherwise; the table knows six statuses (400, 401, 403, 404, 409, 500)
    and every other status is labelled ["Error"]. *)
Theorem error_label_of_object_payload
    (env : ProcessEnv) (status : Z) (props : list (string * JsVal))
    (err : ErrorFields) (tid : option string) (body : ErrorResponseDto) :
  buildErrorResponse env (HttpException status (JObj props) err) tid = Normal body ->
  error body =
    match assoc "error" props with
    | Some label => if isNullish label then JStr (getStatusText status) else label
    | None => JStr (getStatusText status)
    end
  /\
  (getStatusText status = "Error" <->
   ~ In status [ 400; 401; 403; 404; 409; 500 ]).
Proof.
  intros Hb. split; [|apply getStatusText_default].
  simpl in Hb. unfold normalizeHttpException in Hb.
  cbn -[formatValidationDetails] in Hb.
  destruct (formatValidationDetails _ (JObj props)) as [dets|x];
    [|discriminate]. simpl in Hb.
  injection Hb as <-. simpl. unfold nullish_or.
  destruct (assoc "error" props) as [label|]; reflexivity.
Qed.

Lemma error_label_of_object_payload_witness :
  buildErrorResponse production
    (HttpException 422 (JObj [ ("message", JStr "Unprocessable") ])
                   (plain_error "Unprocessable")) None
    = Normal {| statusCode := 422;
                message := JStr "Unprocessable";
                error := JStr "Error";
                traceId := None;
                details := None |} /\
  error {| statusCode := 422;
           message := JStr "Unprocessable";
           error := JStr "Error";
           traceId := None;
           details := None |} =
    match assoc "error" [ ("message", JStr "Unprocessable") ] with
    | Some label => if isNullish label then JStr (getStatusText 422) else label
    | None => JStr (getStatusText 422)
    end
  /\
  (getStatusText 422 = "Error" <->
   ~ In 422 [ 400; 401; 403; 404; 409; 500 ]).
Proof.
  split; [reflexivity|].
  apply (error_label_of_object_payload production 422
           [ ("message", JStr "Unprocessable") ]
           (plain_error "Unprocessable") None).
  reflexivity.
Defined.

(** X5: an object payload whose [message] is not a non-empty array is not
    treated as validation: the envelope has no details, and its message is
    the payload's [message] as it is (an empty array included) when that is
    neither [null] nor [undefined], and the exception's own message
    otherwise. *)
Theorem plain_message_passthrough
    (env : ProcessEnv) (status : Z) (props : list (string * JsVal))
    (err : ErrorFields) (tid : option string) :
  has_message_array props = false ->
  exists body,
    buildErrorResponse env (HttpException status (JObj props) err) tid
      = Normal body /\
    details body = None /\
    statusCode body = status /\
    message body =
      match assoc "message" props with
      | Some m => if isNullish m then JStr (err_message err) else m
      | None => JStr (err_message err)
      end.
Proof.
  unfold has_message_array. intros Hshape. simpl.
  unfold normalizeHttpException. cbn.
  destruct (assoc "message" props) as [m|] eqn:Hm.
  - destruct m as [ | | b | n | s | arr | ps]; simpl; rewrite ?Hm; simpl;
      try (eexists; repeat split; reflexivity).
    destruct arr as [|x arr]; [|discriminate].
    simpl. rewrite ?Hm. eexists; repeat split; reflexivity.
  - simpl. rewrite ?Hm. eexists; repeat split; reflexivity.
Qed.

Lemma plain_message_passthrough_witness :
  has_message_array [ ("message", JArr []) ] = false /\
  exists body,
    buildErrorResponse production
      (HttpException 400 (JObj [ ("message", JArr []) ])
                     (plain_error "Bad Request Exception")) None
      = Normal body /\
    details body = None /\
    statusCode body = 400 /\
    message body =
      match assoc "message" [ ("message", JArr []) ] with
      | Some m => if isNullish m then JStr (err_message (plain_error "Bad Request Exception")) else m
      | None => JStr (err_message (plain_error "Bad Request Exception"))
      end.
Proof.
  split; [reflexivity|].
  apply (plain_message_passthrough production 400 [ ("message", JArr []) ]
           (plain_error "Bad Request Exception") None).
  reflexivity.
Defined.

Lemma violation_item_primitive (e : JsVal) :
  isPrimitive e = true ->
  violation_item e =
    Normal {| field := JStr "body"; messages := [ JStr (primitive_text e) ] |}.
Proof. destruct e; simpl; intros H; try discriminate; reflexivity. Qed.

Lemma mapM_violation_primitives (arr : list JsVal) :
  forallb isPrimitive arr = true ->
  mapM violation_item arr =
    Normal (List.map (fun e => {| field := JStr "body";
                                  messages := [ JStr (primitive_text e) ] |}) arr).
Proof.
  induction arr as [|e arr IH]; simpl; intros H; [reflexivity|].
  apply andb_true_iff in H as [He Harr].
  rewrite (violation_item_primitive e He); simpl.
  rewrite (IH Harr); reflexivity.
Qed.

(** X6: a message sequence of primitive values that are not all strings
    (say a string next to a number) is not wrapped in one entry: every
    element gets an entry of its own under the sentinel field ["body"],
    holding the element's text as its only message: a string as it is,
    [true] or [false] for a boolean, and for a number the text JavaScript
    prints (plain digits below 10^21, exponent form from there on). *)
Theorem mixed_primitives_get_one_entry_each (arr : list JsVal) (raw : JsVal) :
  forallb isPrimitive arr = true ->
  forallb isString arr = false ->
  formatValidationDetails (JArr arr) raw =
    Normal (Some {| errors :=
                      List.map (fun e =>
                                  {| field := JStr "body";
                                     messages :=
                                       [ JStr match e with
                                              | JStr s => s
                                              | JNum n => num_to_string n
                                              | JBool true => "true"
                                              | JBool false => "false"
                                              | _ => EmptyString
                                              end ] |})
                               arr |}).
Proof.
  intros Hprim Hstr.
  assert (Hne : arr <> []) by (intros ->; discriminate).
  rewrite formatValidationDetails_array by assumption.
  unfold validation_errors. rewrite Hstr.
  rewrite (mapM_violation_primitives arr Hprim). cbn [bind].
  assert (Htext : List.map (fun e => {| field := JStr "body";
                                        messages := [ JStr (primitive_text e) ] |}) arr
                  = List.map (fun e =>
                                {| field := JStr "body";
                                   messages :=
                                     [ JStr match e with
                                            | JStr s => s
                                            | JNum n => num_to_string n
                                            | JBool true => "true"
                                            | JBool false => "false"
                                            | _ => EmptyString
                                            end ] |}) arr).
  { apply map_ext_in. intros e Hin.
    pose proof (proj1 (forallb_forall isPrimitive arr) Hprim e Hin) as He.
    destruct e as [ | | [] | n | s | l | props]; try discriminate; reflexivity. }
  rewrite Htext. reflexivity.
Qed.

Lemma mixed_primitives_get_one_entry_each_witness :
  forallb isPrimitive
    [ JStr "name should not be empty"; JNum 7; JNum (10 ^ 21); JBool true ] = true /\
  forallb isString
    [ JStr "name should not be empty"; JNum 7; JNum (10 ^ 21); JBool true ] = false /\
  formatValidationDetails
    (JArr [ JStr "name should not be empty"; JNum 7; JNum (10 ^ 21); JBool true ])
    JNull =
    Normal (Some {| errors :=
                      [ {| field := JStr "body";
                           messages := [ JStr "name should not be empty" ] |};
                        {| field := JStr "body"; messages := [ JStr "7" ] |};
                        {| field := JStr "body"; messages := [ JStr "1e+21" ] |};
                        {| field := JStr "body"; messages := [ JStr "true" ] |} ] |}).
Proof.
  split; [reflexivity|]. split; [reflexivity|].
  apply (mixed_primitives_get_one_entry_each
           [ JStr "name should not be empty"; JNum 7; JNum (10 ^ 21); JBool true ]
           JNull); reflexivity.
Defined.

(** X7: a failure that is not an [HttpException] and carries the
    unique-violation code with an array of field names as [meta.target] is
    answered 409 ["Conflict"]; the message names the fields, joined with a
    comma and a space, when that text is not empty, and is
    ["Resource already exists"] otherwise (no name, or one empty name).
    The envelope is built from the code and the target alone (the
    failure's own message and stack never reach it), and nothing is
    logged. *)
Theorem unique_violation_names_target_fields
    (env : ProcessEnv) (e : Exception) (names : list string) (w : World) :
  instanceofHttpException e = false ->
  exn_prop e "code" = JStr "P2002" ->
  js_get_opt (exn_prop e "meta") "target" = JArr (List.map JStr names) ->
  catch_ env e w =
    (Normal tt,
     {| traceStore := traceStore w;
        logSink := logSink w;
        sent := sent w ++
                [ {| sentStatus := 409;
                     sentBody :=
                       {| statusCode := 409;
                          message :=
                            (if String.eqb (String.concat ", " names) EmptyString
                             then JStr "Resource already exists"
                             else JStr ("Duplicate value for field(s): "
                                        ++ String.concat ", " names));
                          error := JStr "Conflict";
                          traceId := getTraceId (traceStore w);
                          details := None |} |} ] |}).
Proof.
  intros Hhttp Hcode Htarget.
  pose proof (unique_violation_joined_target e (List.map JStr names)
                (String.concat ", " names) (getTraceId (traceStore w))
                Hcode Htarget (array_join_strings ", " names)) as Hmap.
  unfold catch_, buildErrorResponse.
  destruct e as [status raw err | err | v]; [discriminate| |];
    rewrite Hmap; reflexivity.
Qed.

Lemma unique_violation_names_target_fields_witness :
  instanceofHttpException (unique_violation (JArr [ JStr "email"; JStr "name" ])) = false /\
  exn_prop (unique_violation (JArr [ JStr "email"; JStr "name" ])) "code" = JStr "P2002" /\
  js_get_opt (exn_prop (unique_violation (JArr [ JStr "email"; JStr "name" ])) "meta")
             "target" = JArr (List.map JStr [ "email"; "name" ]) /\
  catch_ production (unique_violation (JArr [ JStr "email"; JStr "name" ]))
         (in_request "0a1b") =
    (Normal tt,
     {| traceStore := traceStore (in_request "0a1b");
        logSink := logSink (in_request "0a1b");
        sent := sent (in_request "0a1b") ++
                [ {| sentStatus := 409;
                     sentBody :=
                       {| statusCode := 409;
                          message :=
                            (if String.eqb (String.concat ", " [ "email"; "name" ])
                                           EmptyString
                             then JStr "Resource already exists"
                             else JStr ("Duplicate value for field(s): "
                                        ++ String.concat ", " [ "email"; "name" ]));
                          error := JStr "Conflict";
                          traceId := getTraceId (traceStore (in_request "0a1b"));
                          details := None |} |} ] |}).
Proof.
  split; [reflexivity|]. split; [reflexivity|]. split; [reflexivity|].
  apply (unique_violation_names_target_fields production
           (unique_violation (JArr [ JStr "email"; JStr "name" ]))
           [ "email"; "name" ] (in_request "0a1b")); reflexivity.
Defined.

Lemma thrown_value_message_is_fixed_aux
    (env : ProcessEnv) (v : JsVal) (tid : option string) :
  tryMapPrismaError (ThrownValue v) tid = Normal None ->
  buildErrorResponse env (ThrownValue v) tid = Normal (opaque_envelope tid).
Proof.
  intros Hmap.
  rewrite (unknown_failure_build env (ThrownValue v) tid eq_refl Hmap).
  unfold normalizeUnknownError, opaque_envelope; simpl.
  destruct (isProduction env); reflexivity.
Qed.

(** X8: a thrown value that is not an object at all ([null], [undefined],
    a string, a number, a boolean, an array) never makes the filter raise:
    in every mode it is answered with the fixed 500 envelope, and the log
    gets one error line ["Unknown error"] without a stack. *)
Theorem thrown_non_object_is_opaque
    (env : ProcessEnv) (v : JsVal) (w : World) :
  isPlainObject v = false ->
  catch_ env (ThrownValue v) w =
    (Normal tt,
     {| traceStore := traceStore w;
        logSink := logSink w ++
                   [ {| level := LevelError;
                        line := formatLine (traceStore w) "Unknown error";
                        trace := None |} ];
        sent := sent w ++
                [ {| sentStatus := 500;
                     sentBody := opaque_envelope (getTraceId (traceStore w)) |} ] |}).
Proof.
  intros Hv.
  assert (Hb : buildErrorResponse env (ThrownValue v) (getTraceId (traceStore w))
               = Normal (opaque_envelope (getTraceId (traceStore w)))).
  { apply thrown_value_message_is_fixed_aux.
    destruct v; try discriminate; reflexivity. }
  unfold catch_. rewrite Hb. reflexivity.
Qed.

Lemma thrown_non_object_is_opaque_witness :
  isPlainObject JNull = false /\
  catch_ development (ThrownValue JNull) empty_world =
    (Normal tt,
     {| traceStore := traceStore empty_world;
        logSink := logSink empty_world ++
                   [ {| level := LevelError;
                        line := formatLine (traceStore empty_world) "Unknown error";
                        trace := None |} ];
        sent := sent empty_world ++
                [ {| sentStatus := 500;
                     sentBody := opaque_envelope
                                   (getTraceId (traceStore empty_world)) |} ] |}).
Proof.
  split; [reflexivity|].
  apply (thrown_non_object_is_opaque development JNull empty_world).
  reflexivity.
Defined.

(** X9: whenever [NODE_ENV] is anything but the exact text ["production"]
    (unset included), an [Error] that reaches the unknown-failure rendering
    has its own message copied into the 500 envelope; its stack goes to the
    log line only. *)
Theorem non_production_surfaces_error_message
    (env : ProcessEnv) (err : ErrorFields) (w : World) :
  NODE_ENV env <> Some "production" ->
  tryMapPrismaError (ErrorInstance err) (getTraceId (traceStore w)) = Normal None ->
  catch_ env (ErrorInstance err) w =
    (Normal tt,
     {| traceStore := traceStore w;
        logSink := logSink w ++
                   [ {| level := LevelError;
                        line := formatLine (traceStore w) (err_message err);
                        trace := err_stack err |} ];
        sent := sent w ++
                [ {| sentStatus := 500;
                     sentBody :=
                       {| statusCode := 500;
                          message := JStr (err_message err);
                          error := JStr "Internal Server Error";
                          traceId := getTraceId (traceStore w);
                          details := None |} |} ] |}).
Proof.
  intros Henv Hmap.
  assert (Hprod : isProduction env = false).
  { unfold isProduction. destruct (NODE_ENV env) as [v|] eqn:Hv; [|reflexivity].
    destruct (String.eqb_spec v "production") as [->|Hne]; [|reflexivity].
    contradiction. }
  unfold catch_.
  rewrite (unknown_failure_build env (ErrorInstance err) _ eq_refl Hmap).
  unfold normalizeUnknownError. rewrite Hprod. reflexivity.
Qed.

Lemma non_production_surfaces_error_message_witness :
  NODE_ENV {| NODE_ENV := None |} <> Some "production" /\
  tryMapPrismaError (ErrorInstance (plain_error "connect ECONNREFUSED 10.0.0.5:5432"))
    (getTraceId (traceStore empty_world)) = Normal None /\
  catch_ {| NODE_ENV := None |}
         (ErrorInstance (plain_error "connect ECONNREFUSED 10.0.0.5:5432"))
         empty_world =
    (Normal tt,
     {| traceStore := traceStore empty_world;
        logSink := logSink empty_world ++
                   [ {| level := LevelError;
                        line := formatLine (traceStore empty_world)
                                  (err_message (plain_error "connect ECONNREFUSED 10.0.0.5:5432"));
                        trace := err_stack (plain_error "connect ECONNREFUSED 10.0.0.5:5432") |} ];
        sent := sent empty_world ++
                [ {| sentStatus := 500;
                     sentBody :=
                       {| statusCode := 500;
                          message := JStr (err_message (plain_error "connect ECONNREFUSED 10.0.0.5:5432"));
                          error := JStr "Internal Server Error";
                          traceId := getTraceId (traceStore empty_world);
                          details := None |} |} ] |}).
Proof.
  split; [discriminate|]. split; [reflexivity|].
  apply (non_production_surfaces_error_message {| NODE_ENV := None |}
           (plain_error "connect ECONNREFUSED 10.0.0.5:5432") empty_world);
    [discriminate|reflexivity].
Defined.

(** * The service in front of the filter *)

Lemma not_found_through_filter
    (env : ProcessEnv) (msg : string) (w : World) :
  catch_ env (Students.NotFoundException msg) w =
    (Normal tt,
     {| traceStore := traceStore w;
        logSink := logSink w ++
                   [ {| level := LevelWarn;
                        line := formatLine (traceStore w)
                                  ("HttpException 404: " ++ json_quote msg);
                        trace := None |} ];
        sent := sent w ++
                [ {| sentStatus := 404;
                     sentBody := {| statusCode := 404;
                                    message := JStr msg;
                                    error := JStr "Not Found";
                                    traceId := getTraceId (traceStore w);
                                    details := None |} |} ] |}).
Proof. reflexivity. Qed.

(** X10: looking up a student the repository does not find rejects with
    the not-found failure after writing one warning line; handed to the
    filter, that failure is answered 404 with the message
    ["Student <id> not found"], the label ["Not Found"] and the current
    trace identifier, and a second warning line holding the status and the
    JSON text of the message is written: two log lines, one response. *)
Theorem lookup_of_missing_student_end_to_end
    (R : Type) (repo : StudentsApi.IStudentRepository R)
    (toISOString : Z -> string) (env : ProcessEnv)
    (ident : string) (db db' : R) (w : World) :
  StudentsApi.repo_findOneBy (StudentsApi.byId ident) db = (Normal None, db') ->
  exists failure,
    StudentsApi.findById toISOString ident db w =
      (Throw failure, db', warn ("Student not found: " ++ ident) w) /\
    catch_ env failure (warn ("Student not found: " ++ ident) w) =
      (Normal tt,
       {| traceStore := traceStore w;
          logSink := logSink w ++
                     [ {| level := LevelWarn;
                          line := formatLine (traceStore w)
                                    ("Student not found: " ++ ident);
                          trace := None |};
                       {| level := LevelWarn;
                          line := formatLine (traceStore w)
                                    ("HttpException 404: "
                                     ++ json_quote ("Student " ++ ident ++ " not found"));
                          trace := None |} ];
          sent := sent w ++
                  [ {| sentStatus := 404;
                       sentBody :=
                         {| statusCode := 404;
                            message := JStr ("Student " ++ ident ++ " not found");
                            error := JStr "Not Found";
                            traceId := getTraceId (traceStore w);
                            details := None |} |} ] |}).
Proof.
  intros Hfind.
  exists (Students.NotFoundException ("Student " ++ ident ++ " not found")).
  split.
  - unfold StudentsApi.findById. rewrite Hfind. reflexivity.
  - rewrite not_found_through_filter. unfold warn, writeLog; simpl.
    rewrite <- app_assoc. reflexivity.
Qed.

Lemma lookup_of_missing_student_end_to_end_witness :
  StudentsApi.repo_findOneBy (IStudentRepository := sample_repository)
    (StudentsApi.byId "42") no_students = (Normal None, no_students) /\
  exists failure,
    StudentsApi.findById (repo := sample_repository) epoch_text "42" no_students
                         (in_request "c0de") =
      (Throw failure, no_students,
       warn ("Student not found: " ++ "42") (in_request "c0de")) /\
    catch_ production failure
           (warn ("Student not found: " ++ "42") (in_request "c0de")) =
      (Normal tt,
       {| traceStore := traceStore (in_request "c0de");
          logSink := logSink (in_request "c0de") ++
                     [ {| level := LevelWarn;
                          line := formatLine (traceStore (in_request "c0de"))
                                    ("Student not found: " ++ "42");
                          trace := None |};
                       {| level := LevelWarn;
                          line := formatLine (traceStore (in_request "c0de"))
                                    ("HttpException 404: "
                                     ++ json_quote ("Student " ++ "42" ++ " not found"));
                          trace := None |} ];
          sent := sent (in_request "c0de") ++
                  [ {| sentStatus := 404;
                       sentBody :=
                         {| statusCode := 404;
                            message := JStr ("Student " ++ "42" ++ " not found");
                            error := JStr "Not Found";
                            traceId := getTraceId (traceStore (in_request "c0de"));
                            details := None |} |} ] |}).
Proof.
  split; [reflexivity|].
  apply (lookup_of_missing_student_end_to_end
           (gmap string Students.StudentModel) sample_repository epoch_text
           production "42" no_students no_students (in_request "c0de")).
  reflexivity.
Defined.

(** X11: when the repository's [delete] rejects, [remove] rejects with the
    very same failure and the repository state [delete] left; if that
    failure carries the record-not-found vendor code, the filter answers
    404 with the generic message ["Record not found"] (not the service's
    ["Student <id> not found"]) and writes no log line. *)
Theorem rejected_delete_is_answered_by_vendor_mapping
    (R : Type) (repo : Students.IStudentRepository R) (env : ProcessEnv)
    (key : string) (db db' : R) (failure : Exception) (w : World) :
  Students.repo_delete key db = (Throw failure, db') ->
  instanceofHttpException failure = false ->
  exn_prop failure "code" = JStr "P2025" ->
  Students.remove key db = (Throw failure, db') /\
  catch_ env failure w =
    (Normal tt,
     {| traceStore := traceStore w;
        logSink := logSink w;
        sent := sent w ++
                [ {| sentStatus := 404;
                     sentBody := {| statusCode := 404;
                                    message := JStr "Record not found";
                                    error := JStr "Not Found";
                                    traceId := getTraceId (traceStore w);
                                    details := None |} |} ] |}).
Proof.
  intros Hdel Hhttp Hcode. split.
  - unfold Students.remove. rewrite Hdel. reflexivity.
  - unfold catch_, buildErrorResponse, tryMapPrismaError.
    destruct failure as [status raw err | err | v]; [discriminate| |];
      rewrite Hcode; reflexivity.
Qed.

Lemma rejected_delete_is_answered_by_vendor_mapping_witness :
  Students.repo_delete (IStudentRepository := rejecting_repository) "42" tt
    = (Throw record_to_delete_missing, tt) /\
  instanceofHttpException record_to_delete_missing = false /\
  exn_prop record_to_delete_missing "code" = JStr "P2025" /\
  Students.remove (H := rejecting_repository) "42" tt
    = (Throw record_to_delete_missing, tt) /\
  catch_ production record_to_delete_missing (in_request "77aa") =
    (Normal tt,
     {| traceStore := traceStore (in_request "77aa");
        logSink := logSink (in_request "77aa");
        sent := sent (in_request "77aa") ++
                [ {| sentStatus := 404;
                     sentBody := {| statusCode := 404;
                                    message := JStr "Record not found";
                                    error := JStr "Not Found";
                                    traceId := getTraceId (traceStore (in_request "77aa"));
                                    details := None |} |} ] |}).
Proof.
  split; [reflexivity|]. split; [reflexivity|]. split; [reflexivity|].
  apply (rejected_delete_is_answered_by_vendor_mapping unit rejecting_repository
           production "42" tt tt record_to_delete_missing (in_request "77aa"));
    reflexivity.
Defined.

(** * Seeding *)

Import Seeding.

Lemma mem_In (x : string) (l : list string) : mem x l = true <-> In x l.
Proof.
  unfold mem. rewrite existsb_exists. split.
  - intros (y & Hy & Heq). apply String.eqb_eq in Heq. subst. exact Hy.
  - intros H. exists x. split; [exact H|apply String.eqb_refl].
Qed.

Lemma insert_by_code_In (le : string -> string -> bool) (c x : Course)
    (l : list Course) :
  In x (insert_by_code le c l) <-> x = c \/ In x l.
Proof.
  induction l as [|y l IH]; simpl.
  - split; [intros [H|[]]; left; congruence|intros [H|[]]; left; congruence].
  - destruct (le (c_code c) (c_code y)); simpl.
    + split; [intros [H|H]; [left; congruence|right; exact H]
             |intros [H|H]; [left; congruence|right; exact H]].
    + rewrite IH. split.
      * intros [H|[H|H]]; [right; left; exact H|left; exact H|right; right; exact H].
      * intros [H|[H|H]]; [right; left; exact H|left; exact H|right; right; exact H].
Qed.

Lemma sort_by_code_In (le : string -> string -> bool) (x : Course)
    (l : list Course) :
  In x (sort_by_code le l) <-> In x l.
Proof.
  induction l as [|y l IH]; simpl; [reflexivity|].
  rewrite insert_by_code_In, IH. split; intros [H|H]; auto.
Qed.

Lemma insert_by_code_length (le : string -> string -> bool) (c : Course)
    (l : list Course) :
  length (insert_by_code le c l) = S (length l).
Proof.
  induction l as [|y l IH]; simpl; [reflexivity|].
  destruct (le (c_code c) (c_code y)); simpl; [reflexivity|].
  rewrite IH. reflexivity.
Qed.

Lemma sort_by_code_length (le : string -> string -> bool) (l : list Course) :
  length (sort_by_code le l) = length l.
Proof.
  induction l as [|y l IH]; simpl; [reflexivity|].
  rewrite insert_by_code_length, IH. reflexivity.
Qed.

(** Every pair of the plan takes its student among the first six of the
    list and its course from the list of courses. *)
Lemma enrollmentPlan_members (studentIds courseIds : list string)
    (p : string * string) :
  courseIds <> [] ->
  In p (enrollmentPlan studentIds courseIds) ->
  In (fst p) (firstn 6 studentIds) /\ In (snd p) courseIds.
Proof.
  intros Hne Hin. unfold enrollmentPlan in Hin.
  apply in_map_iff in Hin as (i & <- & Hi). apply in_seq in Hi. simpl.
  assert (Hlen : (0 < length courseIds)%nat)
    by (destruct courseIds; [contradiction|simpl; lia]).
  split.
  - assert (Hi6 : (i < length (firstn 6 studentIds))%nat)
      by (rewrite length_firstn; lia).
    replace (nth i studentIds EmptyString)
      with (nth i (firstn 6 studentIds) EmptyString).
    + apply nth_In. exact Hi6.
    + rewrite <- (firstn_skipn 6 studentIds) at 2.
      rewrite app_nth1 by exact Hi6. reflexivity.
  - apply nth_In. apply Nat.mod_upper_bound. lia.
Qed.

Lemma enrollmentPlan_length (studentIds courseIds : list string) :
  length (enrollmentPlan studentIds courseIds)
  = Nat.min (length studentIds) 6.
Proof. unfold enrollmentPlan. rewrite length_map, length_seq. reflexivity. Qed.

Lemma enrolled_In (studentId courseId : string) (db : Database) :
  enrolled studentId courseId db = true <->
  In (courseId, studentId) (courseToStudent db).
Proof.
  unfold enrolled. rewrite existsb_exists. split.
  - intros ([c s] & Hin & Heq). unfold same_pair in Heq; simpl in Heq.
    apply andb_true_iff in Heq as [H1 H2].
    apply String.eqb_eq in H1, H2. subst. exact Hin.
  - intros Hin. exists (courseId, studentId). split; [exact Hin|].
    unfold same_pair; simpl. rewrite !String.eqb_refl. reflexivity.
Qed.

Lemma find_student (studentId : string) (l : list Student) :
  In studentId (List.map s_id l) ->
  exists st, List.find (fun st => String.eqb (s_id st) studentId) l = Some st.
Proof.
  induction l as [|x l IH]; simpl; [intros []|].
  intros [H|H].
  - rewrite H, String.eqb_refl. eexists; reflexivity.
  - destruct (String.eqb (s_id x) studentId); [eexists; reflexivity|].
    apply IH; exact H.
Qed.

Lemma with_enrollments_same (db : Database) :
  with_enrollments db (courseToStudent db) = db.
Proof. destruct db; reflexivity. Qed.

(** One turn of the loop of [seedCourseEnrollments] on a pair whose
    student and course are stored. *)
Lemma connectAll_step (studentId courseId : string)
    (rest : list (string * string)) (db : Database) :
  In studentId (List.map s_id (students db)) ->
  In courseId (List.map c_id (courses db)) ->
  connectAll ((studentId, courseId) :: rest) db =
    if enrolled studentId courseId db
    then connectAll rest db
    else connectAll rest
           (with_enrollments db (courseToStudent db ++ [ (courseId, studentId) ])%list).
Proof.
  intros Hs Hc. simpl. unfold andThen at 1, student_findFirst_enrolled.
  destruct (enrolled studentId courseId db) eqn:Hen.
  - destruct (find_student studentId (students db) Hs) as (st & ->). reflexivity.
  - unfold andThen at 1, student_connect_course.
    apply mem_In in Hs, Hc. rewrite Hs, Hc, Hen. reflexivity.
Qed.

Lemma connectAll_spec (plan : list (string * string)) :
  forall db : Database,
    (forall p, In p plan ->
               In (fst p) (List.map s_id (students db)) /\
               In (snd p) (List.map c_id (courses db))) ->
    exists added,
      connectAll plan db =
        (Normal tt, with_enrollments db (courseToStudent db ++ added)%list) /\
      (length added <= length plan)%nat /\
      (forall q, In q added -> exists p, In p plan /\ q = join_row p) /\
      (forall p, In p plan -> In (join_row p) (courseToStudent db ++ added)%list).
Proof.
  induction plan as [|[s c] rest IH]; intros db Hvalid.
  - exists []. simpl. rewrite app_nil_r, with_enrollments_same.
    repeat split; [lia|intros q []|intros p []].
  - destruct (Hvalid (s, c) (or_introl eq_refl)) as [Hs Hc]; simpl in Hs, Hc.
    rewrite connectAll_step by assumption.
    destruct (enrolled s c db) eqn:Hen.
    + destruct (IH db) as (added & Hrun & Hlen & Hin & Hall).
      { intros p Hp. apply Hvalid. right; exact Hp. }
      exists added. split; [exact Hrun|]. split; [simpl; lia|]. split.
      * intros q Hq. destruct (Hin q Hq) as (p & Hp & ->).
        exists p. split; [right; exact Hp|reflexivity].
      * intros p [<-|Hp]; [|apply Hall; exact Hp].
        apply in_or_app. left. apply enrolled_In. exact Hen.
    + destruct (IH (with_enrollments db (courseToStudent db ++ [ (c, s) ])%list))
        as (added & Hrun & Hlen & Hin & Hall).
      { intros p Hp. apply Hvalid. right; exact Hp. }
      exists ((c, s) :: added). simpl in Hrun, Hall.
      rewrite <- app_assoc in Hrun, Hall. simpl in Hrun, Hall.
      split; [exact Hrun|]. split; [simpl; lia|]. split.
      * intros q [<-|Hq]; [exists (s, c); split; [left; reflexivity|reflexivity]|].
        destruct (Hin q Hq) as (p & Hp & ->).
        exists p. split; [right; exact Hp|reflexivity].
      * intros p [<-|Hp]; [|apply Hall; exact Hp].
        apply in_or_app. right. left. reflexivity.
Qed.

Lemma connectAll_noop (plan : list (string * string)) (db : Database) :
  (forall p, In p plan ->
             In (fst p) (List.map s_id (students db)) /\
             In (snd p) (List.map c_id (courses db)) /\
             In (join_row p) (courseToStudent db)) ->
  connectAll plan db = (Normal tt, db).
Proof.
  induction plan as [|[s c] rest IH]; intros Hall; [reflexivity|].
  destruct (Hall (s, c) (or_introl eq_refl)) as (Hs & Hc & Hen).
  unfold join_row in Hen. simpl in Hs, Hc, Hen.
  rewrite connectAll_step by assumption.
  apply enrolled_In in Hen. rewrite Hen.
  apply IH. intros p Hp. apply Hall. right; exact Hp.
Qed.


Lemma seedCourseEnrollments_unfold (le : string -> string -> bool)
    (db : Database) :
  seedCourseEnrollments le db =
    if (Nat.eqb (length (List.map s_id (firstn 20 (students db)))) 0
        || Nat.eqb (length (List.map c_id (sort_by_code le (courses db)))) 0)%bool
    then (Normal tt, db)
    else connectAll
           (enrollmentPlan (List.map s_id (firstn 20 (students db)))
                           (List.map c_id (sort_by_code le (courses db))))
           db.
Proof.
  unfold seedCourseEnrollments, andThen, student_findMany_take20,
    course_findMany_by_code, resolved.
  destruct (_ || _)%bool; reflexivity.
Qed.

Lemma first_six_of_twenty (l : list Student) :
  firstn 6 (List.map s_id (firstn 20 l)) = List.map s_id (firstn 6 l).
Proof. rewrite firstn_map, firstn_firstn. reflexivity. Qed.

Lemma sorted_course_ids (le : string -> string -> bool) (l : list Course)
    (x : string) :
  In x (List.map c_id (sort_by_code le l)) -> In x (List.map c_id l).
Proof.
  intros H. apply in_map_iff in H as (c & <- & Hc).
  apply in_map. apply sort_by_code_In in Hc. exact Hc.
Qed.

Lemma seeded_plan_members (le : string -> string -> bool) (db : Database)
    (p : string * string) :
  List.map c_id (sort_by_code le (courses db)) <> [] ->
  In p (enrollmentPlan (List.map s_id (firstn 20 (students db)))
                       (List.map c_id (sort_by_code le (courses db)))) ->
  In (fst p) (List.map s_id (firstn 6 (students db))) /\
  In (snd p) (List.map c_id (courses db)).
Proof.
  intros Hne Hin.
  destruct (enrollmentPlan_members _ _ p Hne Hin) as [Hs Hc].
  rewrite first_six_of_twenty in Hs. split; [exact Hs|].
  eapply sorted_course_ids; exact Hc.
Qed.

Lemma first_six_stored (l : list Student) (x : string) :
  In x (List.map s_id (firstn 6 l)) -> In x (List.map s_id l).
Proof.
  intros H. apply in_map_iff in H as (st & <- & Hst).
  apply in_map. rewrite <- (firstn_skipn 6 l). apply in_or_app. left; exact Hst.
Qed.

Lemma nonempty_length {A : Type} (l : list A) :
  Nat.eqb (length l) 0 = false -> l <> [].
Proof. destruct l; [discriminate|discriminate]. Qed.

Lemma seedCourseEnrollments_appends
    (le : string -> string -> bool) (db : Database) :
  exists added,
    seedCourseEnrollments le db =
      (Normal tt, with_enrollments db (courseToStudent db ++ added)) /\
    (length added <= 6)%nat /\
    Forall (fun row =>
              In (fst row) (List.map c_id (courses db)) /\
              In (snd row) (List.map s_id (firstn 6 (students db))))
           added.
Proof.
  rewrite seedCourseEnrollments_unfold.
  destruct (_ || _)%bool eqn:Hempty.
  - exists []. rewrite app_nil_r, with_enrollments_same.
    split; [reflexivity|]. split; [simpl; lia|constructor].
  - apply orb_false_iff in Hempty as [_ Hc]. apply nonempty_length in Hc.
    destruct (connectAll_spec
                (enrollmentPlan (List.map s_id (firstn 20 (students db)))
                                (List.map c_id (sort_by_code le (courses db))))
                db) as (added & Hrun & Hlen & Hin & _).
    { intros p Hp. destruct (seeded_plan_members le db p Hc Hp) as [Hs Hcs].
      split; [apply first_six_stored; exact Hs|exact Hcs]. }
    exists added. split; [exact Hrun|]. split.
    + rewrite enrollmentPlan_length in Hlen. lia.
    + apply List.Forall_forall. intros row Hrow.
      destruct (Hin row Hrow) as (p & Hp & ->).
      destruct (seeded_plan_members le db p Hc Hp) as [Hs Hcs].
      split; [exact Hcs|exact Hs].
Qed.

Lemma seedCourseEnrollments_twice
    (le : string -> string -> bool) (db : Database) :
  seedCourseEnrollments le (snd (seedCourseEnrollments le db)) =
    (Normal tt, snd (seedCourseEnrollments le db)).
Proof.
  rewrite (seedCourseEnrollments_unfold le db).
  destruct (_ || _)%bool eqn:Hempty.
  - simpl. rewrite seedCourseEnrollments_unfold, Hempty. reflexivity.
  - pose proof Hempty as Hempty'.
    apply orb_false_iff in Hempty' as [_ Hc]. apply nonempty_length in Hc.
    destruct (connectAll_spec
                (enrollmentPlan (List.map s_id (firstn 20 (students db)))
                                (List.map c_id (sort_by_code le (courses db))))
                db) as (added & Hrun & _ & _ & Hall).
    { intros p Hp. destruct (seeded_plan_members le db p Hc Hp) as [Hs Hcs].
      split; [apply first_six_stored; exact Hs|exact Hcs]. }
    rewrite Hrun. simpl.
    rewrite seedCourseEnrollments_unfold. simpl. rewrite Hempty.
    apply connectAll_noop. intros p Hp. simpl.
    destruct (seeded_plan_members le db p Hc Hp) as [Hs Hcs].
    split; [apply first_six_stored; exact Hs|]. split; [exact Hcs|].
    apply Hall. exact Hp.
Qed.

(** X12: seeding the course enrollments never rejects and touches nothing
    but the join table, to which it appends at most six rows; every new row
    links a stored course to one of the first six students in storage
    order. *)
Theorem enrollment_seed_appends_at_most_six
    (le : string -> string -> bool) (db : Database) :
  exists added,
    seedCourseEnrollments le db =
      (Normal tt, with_enrollments db (courseToStudent db ++ added)) /\
    (length added <= 6)%nat /\
    Forall (fun row =>
              In (fst row) (List.map c_id (courses db)) /\
              In (snd row) (List.map s_id (firstn 6 (students db))))
           added.
Proof. exact (seedCourseEnrollments_appends le db). Qed.

(** X13: seeding the course enrollments is idempotent: a second run on the
    database the first run left changes nothing. *)
Theorem enrollment_seed_is_idempotent
    (le : string -> string -> bool) (db : Database) :
  seedCourseEnrollments le (snd (seedCourseEnrollments le db)) =
    (Normal tt, snd (seedCourseEnrollments le db)).
Proof. exact (seedCourseEnrollments_twice le db). Qed.

(** X14: the enrollments are dealt round robin: after the seed has run on
    a database with at least one course, the student at position [i] of
    the table, for every [i] below six, is enrolled in the course at
    position [i mod m] of the courses sorted by code, [m] being the number
    of courses. *)
Theorem enrollment_seed_is_round_robin
    (le : string -> string -> bool) (db : Database) (i : nat) :
  courses db <> [] ->
  (i < Nat.min (length (students db)) 6)%nat ->
  enrolled (nth i (List.map s_id (students db)) EmptyString)
           (nth (i mod length (courses db))
                (List.map c_id (sort_by_code le (courses db))) EmptyString)
           (snd (seedCourseEnrollments le db)) = true.
Proof.
  intros Hcourses Hi.
  assert (Hclen : length (List.map c_id (sort_by_code le (courses db)))
                  = length (courses db))
    by (rewrite length_map, sort_by_code_length; reflexivity).
  assert (Hslen : length (List.map s_id (firstn 20 (students db)))
                  = Nat.min 20 (length (students db)))
    by (rewrite length_map, length_firstn; reflexivity).
  assert (Hpos : (0 < length (courses db))%nat)
    by (destruct (courses db); [contradiction|simpl; lia]).
  rewrite seedCourseEnrollments_unfold.
  destruct (_ || _)%bool eqn:Hempty.
  - apply orb_true_iff in Hempty as [H|H]; apply Nat.eqb_eq in H; lia.
  - apply orb_false_iff in Hempty as [_ Hc]. apply nonempty_length in Hc.
    destruct (connectAll_spec
                (enrollmentPlan (List.map s_id (firstn 20 (students db)))
                                (List.map c_id (sort_by_code le (courses db))))
                db) as (added & Hrun & _ & _ & Hall).
    { intros p Hp. destruct (seeded_plan_members le db p Hc Hp) as [Hs Hcs].
      split; [apply first_six_stored; exact Hs|exact Hcs]. }
    rewrite Hrun. simpl. apply enrolled_In. simpl.
    assert (Hnth : nth i (List.map s_id (students db)) EmptyString
                   = nth i (List.map s_id (firstn 20 (students db))) EmptyString).
    { rewrite <- (firstn_skipn 20 (students db)) at 1.
      rewrite map_app, app_nth1; [reflexivity|]. rewrite Hslen. lia. }
    rewrite Hnth.
    apply (Hall (nth i (List.map s_id (firstn 20 (students db))) EmptyString,
                 nth (i mod length (courses db))
                     (List.map c_id (sort_by_code le (courses db))) EmptyString)).
    unfold enrollmentPlan. apply in_map_iff. exists i. split.
    + rewrite Hclen. reflexivity.
    + apply in_seq. rewrite Hslen. lia.
Qed.


Lemma teachers_seed_skips (db : Database) :
  teachers db <> [] -> teachers_seed db = (Normal tt, db).
Proof.
  intros Hne. unfold teachers_seed, andThen, teacher_count.
  destruct (teachers db) as [|t ts] eqn:Ht; [contradiction|].
  reflexivity.
Qed.

Lemma teachers_seed_fills (db : Database) :
  teachers db = [] ->
  teachers_seed db =
    (Normal tt,
     {| teachers := teachersSeedData;
        courses := courses db;
        students := students db;
        courseToStudent := courseToStudent db |}).
Proof.
  intros He. destruct db as [ts cs ss es]; simpl in He; subst. reflexivity.
Qed.

Lemma courses_seed_skips (db : Database) :
  courses db <> [] -> courses_seed db = (Normal tt, db).
Proof.
  intros Hne. unfold courses_seed, andThen, course_count.
  destruct (courses db) as [|c cs] eqn:Hc; [contradiction|].
  reflexivity.
Qed.

Lemma courses_seed_fills (db : Database) :
  courses db = [] ->
  courses_seed db =
    if forallb (fun c => mem (c_teacherId c) (List.map t_id (teachers db)))
               coursesSeedData
    then (Normal tt,
          {| teachers := teachers db;
             courses := coursesSeedData;
             students := students db;
             courseToStudent := courseToStudent db |})
    else (Throw (prismaError "P2003" "Foreign key constraint violated"), db).
Proof.
  intros He. destruct db as [ts cs ss es]; simpl in He; subst.
  unfold courses_seed, andThen, course_count, course_createMany, resolved.
  simpl.
  match goal with |- context [negb ?b] => destruct b end; reflexivity.
Qed.

(** What the students' seed does before it turns to the enrollments. *)
Lemma students_seed_unfold (le : string -> string -> bool)
    (rows : list SeedStudent) (db : Database) :
  students_seed le rows db =
    match students db with
    | [] =>
        if distinct (List.map s_id (List.map seeded_student rows))
        then seedCourseEnrollments le
               {| teachers := teachers db;
                  courses := courses db;
                  students := List.map seeded_student rows;
                  courseToStudent := courseToStudent db |}
        else (Throw (prismaError "P2002" "Unique constraint failed"), db)
    | _ :: _ => seedCourseEnrollments le db
    end.
Proof.
  destruct db as [ts cs ss es].
  cbn [courses teachers students courseToStudent].
  destruct ss as [|st sts].
  - unfold students_seed, andThen, student_count, student_createMany, resolved.
    simpl.
    change (List.map _ rows) with (List.map seeded_student rows).
    destruct (distinct _); reflexivity.
  - unfold students_seed, andThen, student_count, resolved.
    cbn [courses teachers students courseToStudent].
    replace (Z.of_nat (length (st :: sts)) =? 0) with false
      by (symmetry; apply Z.eqb_neq; simpl length; lia).
    reflexivity.
Qed.

Lemma bootstrap_unfold (le : string -> string -> bool)
    (rows : list SeedStudent) (db : Database) :
  onApplicationBootstrap le rows db =
    match teachers_seed db with
    | (Normal _, d1) =>
        match courses_seed d1 with
        | (Normal _, d2) => students_seed le rows d2
        | (Throw e, d2) => (Throw e, d2)
        end
    | (Throw e, d1) => (Throw e, d1)
    end.
Proof. reflexivity. Qed.

(** The teachers' seed never rejects and leaves a table that is not
    empty. *)
Lemma teachers_seed_result (db : Database) :
  exists d1,
    teachers_seed db = (Normal tt, d1) /\
    teachers d1 <> [] /\
    courses d1 = courses db /\
    students d1 = students db /\
    courseToStudent d1 = courseToStudent db /\
    (teachers db <> [] -> d1 = db).
Proof.
  destruct (teachers db) as [|t ts] eqn:Ht.
  - eexists. split; [apply teachers_seed_fills; exact Ht|].
    repeat split; try reflexivity; [discriminate|contradiction].
  - exists db. split; [apply teachers_seed_skips; rewrite Ht; discriminate|].
    rewrite Ht. repeat split; try reflexivity. discriminate.
Qed.

Lemma courses_seed_result (d1 d2 : Database) :
  courses_seed d1 = (Normal tt, d2) ->
  courses d2 <> [] /\
  teachers d2 = teachers d1 /\
  students d2 = students d1 /\
  courseToStudent d2 = courseToStudent d1.
Proof.
  destruct (courses d1) as [|c cs] eqn:Hc.
  - rewrite (courses_seed_fills d1 Hc).
    destruct (forallb _ coursesSeedData); [|discriminate].
    intros [= <-]. simpl. repeat split; try reflexivity. discriminate.
  - rewrite courses_seed_skips by (rewrite Hc; discriminate).
    intros [= <-]. rewrite Hc. repeat split; try reflexivity. discriminate.
Qed.

Lemma seedCourseEnrollments_tables (le : string -> string -> bool)
    (db : Database) :
  fst (seedCourseEnrollments le db) = Normal tt /\
  teachers (snd (seedCourseEnrollments le db)) = teachers db /\
  courses (snd (seedCourseEnrollments le db)) = courses db /\
  students (snd (seedCourseEnrollments le db)) = students db.
Proof.
  destruct (seedCourseEnrollments_appends le db) as (added & -> & _).
  repeat split; reflexivity.
Qed.

Lemma students_seed_result (le : string -> string -> bool)
    (rows : list SeedStudent) (d2 db1 : Database) :
  students_seed le rows d2 = (Normal tt, db1) ->
  teachers db1 = teachers d2 /\
  courses db1 = courses d2 /\
  students_seed le rows db1 = (Normal tt, db1).
Proof.
  rewrite (students_seed_unfold le rows d2).
  destruct (students d2) as [|st sts] eqn:Hs.
  - destruct (distinct (List.map s_id (List.map seeded_student rows))) eqn:Hd;
      [|discriminate].
    intros Hrun.
    pose proof (seedCourseEnrollments_tables le
                  {| teachers := teachers d2; courses := courses d2;
                     students := List.map seeded_student rows;
                     courseToStudent := courseToStudent d2 |})
      as (_ & Ht & Hc & Hst).
    pose proof (seedCourseEnrollments_twice le
                  {| teachers := teachers d2; courses := courses d2;
                     students := List.map seeded_student rows;
                     courseToStudent := courseToStudent d2 |}) as Htwice.
    rewrite Hrun in Ht, Hc, Hst, Htwice. simpl in Ht, Hc, Hst, Htwice.
    split; [exact Ht|]. split; [exact Hc|].
    rewrite (students_seed_unfold le rows db1). rewrite Hst.
    destruct (List.map seeded_student rows) as [|r rs] eqn:Hrows.
    + simpl.
      replace {| teachers := teachers db1; courses := courses db1;
                 students := []; courseToStudent := courseToStudent db1 |}
        with db1 by (destruct db1; simpl in Hst; subst; reflexivity).
      exact Htwice.
    + exact Htwice.
  - intros Hrun.
    pose proof (seedCourseEnrollments_tables le d2) as (_ & Ht & Hc & Hst).
    pose proof (seedCourseEnrollments_twice le d2) as Htwice.
    rewrite Hrun in Ht, Hc, Hst, Htwice. simpl in Ht, Hc, Hst, Htwice.
    split; [exact Ht|]. split; [exact Hc|].
    rewrite (students_seed_unfold le rows db1). rewrite Hst, Hs. exact Htwice.
Qed.

(** X15: the bootstrap seed is idempotent: when it has run to completion
    once, running it again on the database it left (a restart of the
    application) completes and changes nothing. *)
Theorem bootstrap_seed_is_idempotent
    (le : string -> string -> bool) (rows : list SeedStudent)
    (db db1 : Database) :
  onApplicationBootstrap le rows db = (Normal tt, db1) ->
  onApplicationBootstrap le rows db1 = (Normal tt, db1).
Proof.
  rewrite (bootstrap_unfold le rows db).
  destruct (teachers_seed_result db) as (d1 & -> & Ht1 & _).
  destruct (courses_seed d1) as [[[]|e] d2] eqn:Hc; [|discriminate].
  destruct (courses_seed_result d1 d2 Hc) as (Hc2 & Ht2 & _).
  intros Hrun.
  destruct (students_seed_result le rows d2 db1 Hrun) as (Ht & Hcs & Hagain).
  rewrite (bootstrap_unfold le rows db1).
  rewrite teachers_seed_skips by (rewrite Ht, Ht2; exact Ht1).
  rewrite courses_seed_skips by (rewrite Hcs; exact Hc2).
  exact Hagain.
Qed.





Lemma extends_refl (db : Database) : extends db db.
Proof.
  repeat split; exists []; rewrite app_nil_r; reflexivity.
Qed.

Lemma extends_trans (a b c : Database) :
  extends a b -> extends b c -> extends a c.
Proof.
  intros ((t1 & Ht1) & (c1 & Hc1) & (s1 & Hs1) & (e1 & He1))
         ((t2 & Ht2) & (c2 & Hc2) & (s2 & Hs2) & (e2 & He2)).
  repeat split.
  - exists (t1 ++ t2)%list. rewrite Ht2, Ht1, app_assoc. reflexivity.
  - exists (c1 ++ c2)%list. rewrite Hc2, Hc1, app_assoc. reflexivity.
  - exists (s1 ++ s2)%list. rewrite Hs2, Hs1, app_assoc. reflexivity.
  - exists (e1 ++ e2)%list. rewrite He2, He1, app_assoc. reflexivity.
Qed.

Lemma andThen_extends {A B : Type} (m : Db A) (k : A -> Db B) :
  (forall db, extends db (snd (m db))) ->
  (forall a db, extends db (snd (k a db))) ->
  forall db, extends db (snd (andThen m k db)).
Proof.
  intros Hm Hk db. unfold andThen. specialize (Hm db).
  destruct (m db) as [[a|e] db']; simpl in *.
  - eapply extends_trans; [exact Hm|apply Hk].
  - exact Hm.
Qed.

Lemma teachers_seed_extends (db : Database) :
  extends db (snd (teachers_seed db)).
Proof.
  revert db. unfold teachers_seed. apply andThen_extends.
  - intros db. apply extends_refl.
  - intros count. destruct (count >? 0); [intros db; apply extends_refl|].
    apply andThen_extends; [|intros _ db; apply extends_refl].
    intros db. unfold teacher_createMany.
    destruct (_ && _); [|apply extends_refl]. simpl.
    repeat split; try (exists []; rewrite app_nil_r; reflexivity).
    eexists; reflexivity.
Qed.

Lemma courses_seed_extends (db : Database) :
  extends db (snd (courses_seed db)).
Proof.
  revert db. unfold courses_seed. apply andThen_extends.
  - intros db. apply extends_refl.
  - intros count. destruct (count >? 0); [intros db; apply extends_refl|].
    apply andThen_extends; [|intros _ db; apply extends_refl].
    intros db. unfold course_createMany.
    destruct (negb _); [apply extends_refl|].
    destruct (negb _); [apply extends_refl|]. simpl.
    repeat split; try (exists []; rewrite app_nil_r; reflexivity).
    eexists; reflexivity.
Qed.

Lemma students_seed_extends (le : string -> string -> bool)
    (rows : list SeedStudent) (db : Database) :
  extends db (snd (students_seed le rows db)).
Proof.
  rewrite students_seed_unfold.
  assert (Henroll : forall d, extends d (snd (seedCourseEnrollments le d))).
  { intros d. destruct (seedCourseEnrollments_appends le d) as (added & -> & _).
    simpl. repeat split; try (exists []; rewrite app_nil_r; reflexivity).
    exists added. reflexivity. }
  destruct (students db) as [|st sts] eqn:Hs; [|apply Henroll].
  destruct (distinct _); [|apply extends_refl].
  eapply extends_trans; [|apply Henroll].
  repeat split; simpl; try (exists []; rewrite app_nil_r; reflexivity).
  rewrite Hs. eexists; reflexivity.
Qed.

(** X17: the bootstrap seed only ever adds rows: whatever the database and
    whether the seed completes or rejects half way, every table of the
    database it leaves is the table it found followed by new rows; no
    stored teacher, course, student or enrollment is removed, changed or
    moved. *)
Theorem bootstrap_seed_only_appends
    (le : string -> string -> bool) (rows : list SeedStudent) (db : Database) :
  extends db (snd (onApplicationBootstrap le rows db)).
Proof.
  revert db. unfold onApplicationBootstrap.
  apply andThen_extends; [apply teachers_seed_extends|]. intros _.
  apply andThen_extends; [apply courses_seed_extends|]. intros _.
  apply students_seed_extends.
Qed.

(** X18: when the teachers table is not empty (so that no teacher is
    seeded) but lacks a teacher the seed courses refer to, and the courses
    table is empty, the bootstrap rejects with the foreign-key failure of
    the courses' [createMany]; the database is left as it was and the
    students' seed does not run. *)
Theorem bootstrap_seed_rejects_on_missing_teacher
    (le : string -> string -> bool) (rows : list SeedStudent) (db : Database) :
  teachers db <> [] ->
  courses db = [] ->
  forallb (fun c => mem (c_teacherId c) (List.map t_id (teachers db)))
          coursesSeedData = false ->
  onApplicationBootstrap le rows db =
    (Throw (prismaError "P2003" "Foreign key constraint violated"), db).
Proof.
  intros Ht Hc Hfk. rewrite bootstrap_unfold.
  rewrite teachers_seed_skips by exact Ht.
  rewrite (courses_seed_fills db Hc), Hfk. reflexivity.
Qed.

Lemma enrollment_seed_is_round_robin_witness :
  courses sample_school <> [] /\
  (4 < Nat.min (length (students sample_school)) 6)%nat /\
  enrolled (nth 4 (List.map s_id (students sample_school)) EmptyString)
           (nth (4 mod length (courses sample_school))
                (List.map c_id (sort_by_code String.leb (courses sample_school)))
                EmptyString)
           (snd (seedCourseEnrollments String.leb sample_school)) = true.
Proof.
  split; [discriminate|]. split; [vm_compute; lia|].
  apply (enrollment_seed_is_round_robin String.leb sample_school 4);
    [discriminate|vm_compute; lia].
Defined.

Lemma bootstrap_seed_is_idempotent_witness :
  onApplicationBootstrap String.leb sample_rows empty_database =
    (Normal tt, snd (onApplicationBootstrap String.leb sample_rows empty_database)) /\
  onApplicationBootstrap String.leb sample_rows
    (snd (onApplicationBootstrap String.leb sample_rows empty_database)) =
    (Normal tt, snd (onApplicationBootstrap String.leb sample_rows empty_database)).
Proof.
  split; [vm_compute; reflexivity|].
  apply (bootstrap_seed_is_idempotent String.leb sample_rows empty_database).
  vm_compute; reflexivity.
Defined.


Lemma bootstrap_seed_rejects_on_missing_teacher_witness :
  teachers foreign_school <> [] /\
  courses foreign_school = [] /\
  forallb (fun c => mem (c_teacherId c) (List.map t_id (teachers foreign_school)))
          coursesSeedData = false /\
  onApplicationBootstrap String.leb sample_rows foreign_school =
    (Throw (prismaError "P2003" "Foreign key constraint violated"), foreign_school).
Proof.
  split; [discriminate|]. split; [reflexivity|]. split; [reflexivity|].
  apply (bootstrap_seed_rejects_on_missing_teacher String.leb sample_rows
           foreign_school); [discriminate|reflexivity|reflexivity].
Defined.

(** * The data source *)

Import DataSource.

Lemma digits_from_some (t : string) (a : Z) : digits t (Some a) <> None.
Proof.
  revert a. induction t as [|c t IH]; simpl; intros a; [discriminate|].
  destruct (digitValue c); [apply IH|discriminate].
Qed.

Lemma toNumber_is_a_number (negative : bool) (m : Z) :
  toNumber negative m <> NaN.
Proof.
  unfold toNumber. destruct (round_to_double m) as [v|]; [|discriminate].
  destruct negative; [destruct (v =? 0)|]; discriminate.
Qed.

(** [parseInt] answers [NaN] exactly when no digit follows the blanks and
    the sign. *)
Lemma parseInt10_is_NaN (s : string) :
  parseInt10 s = NaN <-> startsWithInteger s = false.
Proof.
  unfold parseInt10, startsWithInteger.
  destruct (trimStart s) as [|c t]; [split; reflexivity|].
  destruct (Ascii.eqb c "-") eqn:Hminus; simpl.
  - destruct t as [|d t]; simpl; [split; reflexivity|].
    destruct (digitValue d) as [v|]; simpl; [|split; reflexivity].
    pose proof (digits_from_some t (10 * 0 + v)) as Hd.
    destruct (digits t (Some (10 * 0 + v))) as [m|]; [|contradiction].
    split; [intros H; exfalso; exact (toNumber_is_a_number _ _ H)|discriminate].
  - destruct (Ascii.eqb c "+") eqn:Hplus; simpl.
    + destruct t as [|d t]; simpl; [split; reflexivity|].
      destruct (digitValue d) as [v|]; simpl; [|split; reflexivity].
      pose proof (digits_from_some t (10 * 0 + v)) as Hd.
      destruct (digits t (Some (10 * 0 + v))) as [m|]; [|contradiction].
      split; [intros H; exfalso; exact (toNumber_is_a_number _ _ H)|discriminate].
    + destruct (digitValue c) as [v|]; simpl; [|split; reflexivity].
      pose proof (digits_from_some t (10 * 0 + v)) as Hd.
      destruct (digits t (Some (10 * 0 + v))) as [m|]; [|contradiction].
      split; [intros H; exfalso; exact (toNumber_is_a_number _ _ H)|discriminate].
Qed.

(** What [parseInt] reads: blanks of every script are skipped, the digits
    stop at the first other character, and the value is a double. *)
Lemma parseInt10_samples :
  parseInt10 "5432" = Finite 5432 /\
  parseInt10 (no_break_space ++ " 5432") = Finite 5432 /\
  parseInt10 "54x32" = Finite 54 /\
  parseInt10 "-0" = NegativeZero /\
  parseInt10 "+" = NaN /\
  parseInt10 "9007199254740993" = Finite 9007199254740992.
Proof. repeat split. Qed.

(** X19: a [DATABASE_URL] that is set and not empty decides the whole
    configuration: the data source connects by that URL, and no other
    variable of the environment (host, port, user, password, database name)
    has any effect. *)
Theorem database_url_takes_precedence
    (env env' : gmap string string) (url : string) :
  env !! "DATABASE_URL" = Some url ->
  url <> EmptyString ->
  env' !! "DATABASE_URL" = Some url ->
  dbConfig env = UrlConfig url /\ dbConfig env' = dbConfig env.
Proof.
  intros Hurl Hne Hurl'. unfold dbConfig. rewrite Hurl, Hurl'.
  destruct url as [|c t]; [contradiction|]. split; reflexivity.
Qed.

Lemma database_url_takes_precedence_witness :
  url_environment !! "DATABASE_URL" = Some "postgres://app@db:5432/students_db" /\
  "postgres://app@db:5432/students_db" <> EmptyString /\
  (<[ "DATABASE_URL" := "postgres://app@db:5432/students_db" ]> empty
     : gmap string string) !! "DATABASE_URL"
    = Some "postgres://app@db:5432/students_db" /\
  dbConfig url_environment = UrlConfig "postgres://app@db:5432/students_db" /\
  dbConfig (<[ "DATABASE_URL" := "postgres://app@db:5432/students_db" ]> empty)
    = dbConfig url_environment.
Proof.
  split; [reflexivity|]. split; [discriminate|]. split; [reflexivity|].
  apply (database_url_takes_precedence url_environment
           (<[ "DATABASE_URL" := "postgres://app@db:5432/students_db" ]> empty)
           "postgres://app@db:5432/students_db");
    [reflexivity|discriminate|reflexivity].
Defined.

(** X20: without a usable [DATABASE_URL] (unset or empty) the data source
    connects by host and port; the port is 5432 when [DB_PORT] is unset and
    is otherwise what [parseInt] reads from the text of [DB_PORT] (blanks
    skipped, those beyond ASCII included; one sign; the longest run of
    decimal digits; the double nearest to their value).  It is [NaN]
    exactly when [DB_PORT] is set to a text that does not start, after
    blanks and an optional sign, with a decimal digit (the empty text
    included): the default never stands in for a variable that is set. *)
Theorem port_defaults_only_when_unset (env : gmap string string) :
  envOr env "DATABASE_URL" EmptyString = EmptyString ->
  portOf (dbConfig env) =
    Some (match env !! "DB_PORT" with
          | None => Finite 5432
          | Some v => parseInt10 v
          end)
  /\
  (portOf (dbConfig env) = Some NaN <->
   exists v, env !! "DB_PORT" = Some v /\ startsWithInteger v = false).
Proof.
  unfold envOr, dbConfig. intros Hurl.
  destruct (env !! "DATABASE_URL") as [[|c t]|] eqn:Hu; try discriminate;
    cbn [portOf]; unfold envOr;
    (destruct (env !! "DB_PORT") as [v|] eqn:Hp;
     [split; [reflexivity|]; split;
      [intros [= Hnan]; exists v; split;
       [reflexivity|apply parseInt10_is_NaN; exact Hnan]
      |intros (v' & [= <-] & Hv); apply parseInt10_is_NaN in Hv; rewrite Hv;
       reflexivity]
     |split; [reflexivity|]; split;
      [intros [= Hnan]; discriminate|intros (v' & Hv & _); discriminate]]).
Qed.

Lemma port_defaults_only_when_unset_witness :
  envOr padded_port_environment "DATABASE_URL" EmptyString = EmptyString /\
  portOf (dbConfig padded_port_environment) =
    Some (match padded_port_environment !! "DB_PORT" with
          | None => Finite 5432
          | Some v => parseInt10 v
          end)
  /\
  (portOf (dbConfig padded_port_environment) = Some NaN <->
   exists v, padded_port_environment !! "DB_PORT" = Some v /\
             startsWithInteger v = false).
Proof.
  split; [reflexivity|].
  apply (port_defaults_only_when_unset padded_port_environment).
  reflexivity.
Defined.

(** The port read from a [DB_PORT] that starts with a no-break space, and
    from one that is empty. *)
Lemma port_samples :
  portOf (dbConfig padded_port_environment) = Some (Finite 6543) /\
  portOf (dbConfig blank_port_environment) = Some NaN /\
  portOf (dbConfig empty) = Some (Finite 5432).
Proof. repeat split. Qed.

(** * Further properties of the service and of the log *)

(** X21: updating a student the repository does not find behaves exactly
    as looking it up: the same not-found failure, the same single warning
    line, and the repository state the lookup left; the update's fields
    are neither merged nor saved. *)
Theorem update_of_missing_student_is_a_failed_lookup
    (R : Type) (repo : StudentsApi.IStudentRepository R)
    (toISOString : Z -> string) (ident : string)
    (dto : StudentsApi.UpdateStudentDto) (db db' : R) (w : World) :
  StudentsApi.repo_findOneBy (StudentsApi.byId ident) db = (Normal None, db') ->
  StudentsApi.update toISOString ident dto db w =
    StudentsApi.findById toISOString ident db w
  /\
  StudentsApi.update toISOString ident dto db w =
    (Throw (Students.NotFoundException ("Student " ++ ident ++ " not found")),
     db', warn ("Student not found: " ++ ident) w).
Proof.
  intros Hfind. unfold StudentsApi.update, StudentsApi.findById.
  rewrite Hfind. split; reflexivity.
Qed.

Lemma update_of_missing_student_is_a_failed_lookup_witness :
  StudentsApi.repo_findOneBy (IStudentRepository := sample_repository)
    (StudentsApi.byId "42") no_students = (Normal None, no_students) /\
  StudentsApi.update (repo := sample_repository) epoch_text "42" no_changes
                     no_students empty_world =
    StudentsApi.findById (repo := sample_repository) epoch_text "42"
                         no_students empty_world
  /\
  StudentsApi.update (repo := sample_repository) epoch_text "42" no_changes
                     no_students empty_world =
    (Throw (Students.NotFoundException ("Student " ++ "42" ++ " not found")),
     no_students, warn ("Student not found: " ++ "42") empty_world).
Proof.
  split; [reflexivity|].
  apply (update_of_missing_student_is_a_failed_lookup
           (gmap string Students.StudentModel) sample_repository epoch_text
           "42" no_changes no_students no_students empty_world).
  reflexivity.
Defined.

Lemma has_c0_control_app (a b : string) :
  has_c0_control (a ++ b) = has_c0_control a || has_c0_control b.
Proof.
  induction a as [|c a IH]; simpl; [reflexivity|].
  rewrite IH, orb_assoc. reflexivity.
Qed.

Lemma json_escape_has_no_c0_control (c : ascii) :
  has_c0_control (json_escape c) = false.
Proof.
  destruct c as [[] [] [] [] [] [] [] []]; reflexivity.
Qed.

Lemma json_escape_all_has_no_c0_control (s : string) :
  has_c0_control (json_escape_all s) = false.
Proof.
  induction s as [|c s IH]; simpl; [reflexivity|].
  rewrite has_c0_control_app, json_escape_has_no_c0_control, IH. reflexivity.
Qed.

(** X22: the message of an [HttpException] reaches the log as JSON text:
    for a string payload the warning line is the status followed by the
    quoted message.  In the quoted message every character below U+0020
    (line feed, carriage return, tab and the other C0 controls) is
    escaped, so that none is left; the double quote and the backslash are
    escaped too, and every other byte, DEL and the bytes of the characters
    beyond ASCII included, is copied as it is. *)
Theorem logged_message_is_escaped
    (env : ProcessEnv) (status : Z) (s : string) (err : ErrorFields) (w : World) :
  logSink (snd (catch_ env (HttpException status (JStr s) err) w)) =
    (logSink w ++
     [ {| level := LevelWarn;
          line := formatLine (traceStore w)
                    ("HttpException " ++ num_to_string status ++ ": "
                     ++ json_quote s);
          trace := None |} ])%list
  /\
  has_c0_control (json_quote s) = false
  /\
  (forall c : ascii,
      (32 <= nat_of_ascii c)%nat ->
      nat_of_ascii c <> 34%nat ->
      nat_of_ascii c <> 92%nat ->
      json_escape c = String c EmptyString).
Proof.
  split; [reflexivity|]. split.
  - unfold json_quote.
    rewrite !has_c0_control_app, json_escape_all_has_no_c0_control.
    reflexivity.
  - intros c Hlow Hquote Hback. unfold json_escape.
    destruct (Nat.eqb_spec (nat_of_ascii c) 34) as [|_]; [contradiction|].
    destruct (Nat.eqb_spec (nat_of_ascii c) 92) as [|_]; [contradiction|].
    destruct (Nat.eqb_spec (nat_of_ascii c) 8) as [H|_]; [lia|].
    destruct (Nat.eqb_spec (nat_of_ascii c) 12) as [H|_]; [lia|].
    destruct (Nat.eqb_spec (nat_of_ascii c) 10) as [H|_]; [lia|].
    destruct (Nat.eqb_spec (nat_of_ascii c) 13) as [H|_]; [lia|].
    destruct (Nat.eqb_spec (nat_of_ascii c) 9) as [H|_]; [lia|].
    destruct (Nat.ltb_spec (nat_of_ascii c) 32) as [H|_]; [lia|].
    reflexivity.
Qed.

Lemma mapM_length {E A B : Type} (f : A -> Completion E B) (l : list A)
    (items : list B) :
  mapM f l = Normal items -> length items = length l.
Proof.
  revert items. induction l as [|x l IH]; simpl; intros items.
  - intros [= <-]. reflexivity.
  - destruct (f x) as [y|e]; simpl; [|discriminate].
    destruct (mapM f l) as [ys|e]; simpl; [|discriminate].
    intros [= <-]. simpl. rewrite (IH ys eq_refl). reflexivity.
Qed.

(** X23: whenever the payload's [message] is a non-empty array and the
    failure is rendered, the envelope carries the fixed message
    ["Validation failed"] together with details, whatever the array holds:
    one single entry when every element is a string, and otherwise exactly
    one entry per element. *)
Theorem message_array_always_gives_details
    (env : ProcessEnv) (status : Z) (props : list (string * JsVal))
    (arr : list JsVal) (err : ErrorFields) (tid : option string)
    (body : ErrorResponseDto) :
  assoc "message" props = Some (JArr arr) ->
  arr <> [] ->
  buildErrorResponse env (HttpException status (JObj props) err) tid = Normal body ->
  message body = JStr "Validation failed" /\
  exists d,
    details body = Some d /\
    length (errors d) = if forallb isString arr then 1%nat else length arr.
Proof.
  intros Hmsg Hne Hb. unfold buildErrorResponse in Hb.
  destruct (validation_errors arr) as [items|x] eqn:Herrs.
  - rewrite (normalizeHttpException_validation status props arr items err tid
               Hmsg Hne Herrs) in Hb.
    injection Hb as <-. split; [reflexivity|].
    eexists. split; [reflexivity|]. simpl.
    unfold validation_errors in Herrs.
    destruct (forallb isString arr).
    + injection Herrs as <-. reflexivity.
    + apply (mapM_length _ _ _ Herrs).
  - unfold normalizeHttpException in Hb.
    cbn -[formatValidationDetails] in Hb. rewrite Hmsg in Hb.
    cbn -[formatValidationDetails] in Hb.
    rewrite formatValidationDetails_array in Hb by assumption.
    rewrite Herrs in Hb. discriminate.
Qed.

Lemma message_array_always_gives_details_witness :
  assoc "message" [ ("message", JArr [ JStr "name should not be empty"; JNum 7 ]) ]
    = Some (JArr [ JStr "name should not be empty"; JNum 7 ]) /\
  [ JStr "name should not be empty"; JNum 7 ] <> [] /\
  buildErrorResponse production
    (HttpException 400
       (JObj [ ("message", JArr [ JStr "name should not be empty"; JNum 7 ]) ])
       (plain_error "Bad Request Exception")) None
    = Normal {| statusCode := 400;
                message := JStr "Validation failed";
                error := JStr "Bad Request";
                traceId := None;
                details :=
                  Some {| errors :=
                            [ {| field := JStr "body";
                                 messages := [ JStr "name should not be empty" ] |};
                              {| field := JStr "body";
                                 messages := [ JStr "7" ] |} ] |} |} /\
  message {| statusCode := 400;
             message := JStr "Validation failed";
             error := JStr "Bad Request";
             traceId := None;
             details :=
               Some {| errors :=
                         [ {| field := JStr "body";
                              messages := [ JStr "name should not be empty" ] |};
                           {| field := JStr "body";
                              messages := [ JStr "7" ] |} ] |} |}
    = JStr "Validation failed" /\
  exists d,
    details {| statusCode := 400;
               message := JStr "Validation failed";
               error := JStr "Bad Request";
               traceId := None;
               details :=
                 Some {| errors :=
                           [ {| field := JStr "body";
                                messages := [ JStr "name should not be empty" ] |};
                             {| field := JStr "body";
                                messages := [ JStr "7" ] |} ] |} |} = Some d /\
    length (errors d) =
      if forallb isString [ JStr "name should not be empty"; JNum 7 ]
      then 1%nat
      else length [ JStr "name should not be empty"; JNum 7 ].
Proof.
  split; [reflexivity|]. split; [discriminate|]. split; [reflexivity|].
  apply (message_array_always_gives_details production 400
           [ ("message", JArr [ JStr "name should not be empty"; JNum 7 ]) ]
           [ JStr "name should not be empty"; JNum 7 ]
           (plain_error "Bad Request Exception") None);
    [reflexivity|discriminate|reflexivity].
Defined.
